(** * Valerix: order-fulfilment resilience protocol

    A shallow embedding of the two services of the repository,

    - the inventory service (stock ledger, idempotency log, the
      [deductInventory] routine, its HTTP endpoint and its consumer on
      [inventory_queue]), and
    - the order service (order table, [POST /orders] with its 2 s deadline
      and queue fallback, the consumer on [order_completion_queue], and the
      rolling-window [/stats] endpoint),

    followed by the properties of the specification, each settled against
    these definitions.

    Every handler is run to completion as one step: the interleaving of
    two handlers at their [await]s is not part of the model. The database
    and the broker are modelled by what the code relies on: rows keyed by
    id, unique keys, transactions that roll back on a throw, queues that
    keep a message until it is acknowledged.

    Numbers: stocks, quantities and time stamps are integers, written as
    [Z]; that is exact as long as the values stay within
    [Number.MAX_SAFE_INTEGER], and the statements that depend on the
    arithmetic say so. Durations and their average are binary64 numbers,
    as in the code. *)

From Stdlib Require Import ZArith String List Bool Lia PrimFloat.
From stdpp Require Import base option gmap strings list fin_maps pretty.

Import ListNotations.
Local Open Scope string_scope.
Local Open Scope Z_scope.
Local Open Scope list_scope.

(* ===================================================================== *)
(** * JavaScript values that cross the wire *)
(* ===================================================================== *)

(** The JSON values the handlers inspect with [!x], [x === 'lit'] and
    [x === true]. [JUndefined] is a missing field. *)
Inductive JsVal : Type :=
| JUndefined
| JNull
| JBool (b : bool)
| JNum (n : Z)
| JStr (s : string).

#[global] Instance JsVal_eq_dec : EqDecision JsVal.
Proof. solve_decision. Defined.

(** JavaScript truthiness: [!v] is [negb (truthy v)]. *)
Definition truthy (v : JsVal) : bool :=
  match v with
  | JUndefined | JNull => false
  | JBool b => b
  | JNum n => negb (Z.eqb n 0)
  | JStr s => negb (String.eqb s "")
  end.

(** [v === 'lit'] *)
Definition strict_eq_str (v : JsVal) (lit : string) : bool :=
  match v with
  | JStr s => String.eqb s lit
  | _ => false
  end.

(** [v === true] *)
Definition strict_eq_true (v : JsVal) : bool :=
  match v with
  | JBool true => true
  | _ => false
  end.

(** A field of a typed JSON body that may be missing. *)
Definition js_str (o : option string) : JsVal :=
  match o with Some s => JStr s | None => JUndefined end.
Definition js_num (o : option Z) : JsVal :=
  match o with Some n => JNum n | None => JUndefined end.

(** [haystack.includes(needle)] *)
Definition includes (haystack needle : string) : bool :=
  match String.index 0 needle haystack with
  | Some _ => true
  | None => false
  end.

(** A JSON object body, as the ordered list of its fields. *)
Definition JsObject : Type := list (string * JsVal).

Fixpoint field (k : string) (o : JsObject) : JsVal :=
  match o with
  | [] => JUndefined
  | (k', v) :: o' => if String.eqb k k' then v else field k o'
  end.

Record HttpResponse : Type := mkResponse {
  statusCode : Z;
  json : JsObject
}.

#[global] Instance HttpResponse_eq_dec : EqDecision HttpResponse.
Proof. solve_decision. Defined.

(** An awaited computation either returns or throws [new Error(msg)]. *)
Inductive Outcome (A : Type) : Type :=
| Returned (a : A)
| Threw (msg : string).
Arguments Returned {A} a.
Arguments Threw {A} msg.

(* ===================================================================== *)
(** * The message broker *)
(* ===================================================================== *)

Module Broker.

(** The payload the order service puts on [inventory_queue]:
    [{ productId, quantity, orderId }]. *)
Record WorkItem : Type := mkWorkItem {
  productId : string;
  quantity : Z;
  orderId : string
}.

(** The payload on [order_completion_queue], as the consumer parses it:
    [data.orderId], [data.status] (any JSON value) and [data.message]. *)
Record CompletionEvent : Type := mkCompletionEvent {
  ev_orderId : string;
  ev_status : JsVal;
  ev_message : JsVal
}.

#[global] Instance WorkItem_eq_dec : EqDecision WorkItem.
Proof. solve_decision. Defined.
#[global] Instance CompletionEvent_eq_dec : EqDecision CompletionEvent.
Proof. solve_decision. Defined.

(** The two queues, oldest message first. A message stays at the head of
    its queue until the consumer acknowledges it. *)
Record Queues : Type := mkQueues {
  inventory_queue : list WorkItem;
  order_completion_queue : list CompletionEvent
}.

(** The module-level [let channel: any] of a service: never assigned,
    assigned and usable, or assigned but closed ([sendToQueue] throws). *)
Inductive Channel : Type :=
| NoChannel
| ChannelOpen
| ChannelClosed.

End Broker.

(* ===================================================================== *)
(** * Inventory service *)
(* ===================================================================== *)

Module Inventory.

(** A row of the [product] table (the key [id] is the map key). *)
Record Product : Type := mkProduct {
  name : string;
  stock : Z
}.

#[global] Instance Product_eq_dec : EqDecision Product.
Proof. solve_decision. Defined.

(** The inventory database: the stock ledger and the idempotency log,
    keyed by its unique [orderId]. *)
Record Db : Type := mkDb {
  product : gmap string Product;
  idempotencyLog : gset string
}.

(** The database operations a routine issues, in order. *)
Inductive DbOp : Type :=
| IdempotencyFindUnique (orderId : string)
| ProductFindUnique (id : string)
| ProductUpdate (id : string) (newStock : Z)
| IdempotencyCreate (orderId : string).

(** Operations that read or write the stock ledger. *)
Definition touches_ledger (op : DbOp) : bool :=
  match op with
  | ProductFindUnique _ | ProductUpdate _ _ => true
  | IdempotencyFindUnique _ | IdempotencyCreate _ => false
  end.

Definition ledger_ops (ops : list DbOp) : list DbOp :=
  List.filter touches_ledger ops.

(** Write operations, on either table, among a list of operations. *)
Definition db_writes (ops : list DbOp) : list DbOp :=
  List.filter (fun op => match op with
                         | ProductUpdate _ _ | IdempotencyCreate _ => true
                         | _ => false
                         end) ops.

(** Writes to the stock ledger among a list of operations. *)
Definition stock_writes (ops : list DbOp) : list DbOp :=
  List.filter (fun op => match op with ProductUpdate _ _ => true | _ => false end)
              ops.

(** Database programs: state passing, exceptions, and the log of the
    operations issued. *)
Definition Prisma (A : Type) : Type := Db -> Outcome A * Db * list DbOp.

Definition ret {A} (a : A) : Prisma A := fun db => (Returned a, db, []).

Definition throw {A} (msg : string) : Prisma A := fun db => (Threw msg, db, []).

Definition bind {A B} (m : Prisma A) (k : A -> Prisma B) : Prisma B :=
  fun db =>
    match m db with
    | (Returned a, db1, ops1) =>
        match k a db1 with
        | (r, db2, ops2) => (r, db2, ops1 ++ ops2)
        end
    | (Threw msg, db1, ops1) => (Threw msg, db1, ops1)
    end.

Notation "'await' x <- m 'in' k" := (bind m (fun x => k))
  (at level 10, x name, m at level 100, k at level 200).

(** [prisma.$transaction(body)]: the writes of [body] are committed when it
    returns and rolled back when it throws. *)
Definition transaction {A} (body : Prisma A) : Prisma A :=
  fun db =>
    match body db with
    | (Returned a, db', ops) => (Returned a, db', ops)
    | (Threw msg, _, ops) => (Threw msg, db, ops)
    end.

(** [prisma.idempotencyLog.findUnique({ where: { orderId } })] *)
Definition idempotencyLog_findUnique (orderId : string) : Prisma bool :=
  fun db => (Returned (bool_decide (orderId ∈ idempotencyLog db)), db,
             [IdempotencyFindUnique orderId]).

(** [tx.product.findUnique({ where: { id } })] *)
Definition product_findUnique (id : string) : Prisma (option Product) :=
  fun db => (Returned (product db !! id), db, [ProductFindUnique id]).

(** [tx.product.update({ where: { id }, data: { stock } })]; updating a
    missing row throws. *)
Definition product_update (id : string) (newStock : Z) : Prisma unit :=
  fun db =>
    match product db !! id with
    | Some p =>
        (Returned tt,
         mkDb (<[id := mkProduct (name p) newStock]> (product db))
              (idempotencyLog db),
         [ProductUpdate id newStock])
    | None => (Threw "Record to update not found", db, [ProductUpdate id newStock])
    end.

(** [tx.idempotencyLog.create({ data: { orderId } })]; [orderId] is a
    unique key, so a second row for it throws. *)
Definition idempotencyLog_create (orderId : string) : Prisma unit :=
  fun db =>
    if bool_decide (orderId ∈ idempotencyLog db)
    then (Threw "Unique constraint failed", db, [IdempotencyCreate orderId])
    else (Returned tt,
          mkDb (product db) ({[orderId]} ∪ idempotencyLog db),
          [IdempotencyCreate orderId]).

(** The object [deductInventory] resolves to. *)
Record DeductResult : Type := mkResult {
  message : string;
  success : bool
}.

#[global] Instance DeductResult_eq_dec : EqDecision DeductResult.
Proof. solve_decision. Defined.

Definition AlreadyApplied : DeductResult :=
  mkResult "Stock already deducted (Idempotent)" true.
Definition Applied : DeductResult := mkResult "Stock deducted" true.

Definition InsufficientStock : string :=
  "Insufficient stock or product not found".

(** The body of the transaction of [deductInventory]. *)
Definition deduct_tx (productId : string) (quantity : Z) (orderId : string)
  : Prisma unit :=
  await p <- product_findUnique productId in
  match p with
  | None => throw InsufficientStock
  | Some p =>
      if Z.ltb (stock p) quantity then throw InsufficientStock
      else
        await _ <- product_update productId (stock p - quantity) in
        idempotencyLog_create orderId
  end.

(** [async function deductInventory(productId, quantity, orderId)] *)
Definition deductInventory (productId : string) (quantity : Z) (orderId : string)
  : Prisma DeductResult :=
  await existingLog <- idempotencyLog_findUnique orderId in
  if (existingLog : bool) then ret AlreadyApplied
  else
    await _ <- transaction (deduct_tx productId quantity orderId) in
    ret Applied.

(** The four ways a call [deductInventory productId quantity orderId] on
    [db] can go, used to reason by cases on a call. *)
Inductive deduct_case (productId : string) (quantity : Z) (orderId : string)
  (db : Db) : Outcome DeductResult * Db * list DbOp -> Prop :=
| case_existing :
    orderId ∈ idempotencyLog db ->
    deduct_case productId quantity orderId db
      (Returned AlreadyApplied, db, [IdempotencyFindUnique orderId])
| case_missing :
    orderId ∉ idempotencyLog db ->
    product db !! productId = None ->
    deduct_case productId quantity orderId db
      (Threw InsufficientStock, db,
       [IdempotencyFindUnique orderId; ProductFindUnique productId])
| case_insufficient p :
    orderId ∉ idempotencyLog db ->
    product db !! productId = Some p ->
    stock p < quantity ->
    deduct_case productId quantity orderId db
      (Threw InsufficientStock, db,
       [IdempotencyFindUnique orderId; ProductFindUnique productId])
| case_fresh p :
    orderId ∉ idempotencyLog db ->
    product db !! productId = Some p ->
    quantity <= stock p ->
    deduct_case productId quantity orderId db
      (Returned Applied,
       mkDb (<[productId := mkProduct (name p) (stock p - quantity)]> (product db))
            ({[orderId]} ∪ idempotencyLog db),
       [IdempotencyFindUnique orderId; ProductFindUnique productId;
        ProductUpdate productId (stock p - quantity);
        IdempotencyCreate orderId]).

(** The body of a deduct request or of a work item. *)
Record DeductRequest : Type := mkDeductRequest {
  req_productId : option string;
  req_quantity : option Z;
  req_orderId : option string;
  req_gremlin : JsVal
}.

(** [app.post('/inventory/deduct', ...)]. The 5 s stall of the gremlin
    flag delays the response and changes nothing else; whether the caller
    is still waiting is decided on the caller's side. *)
Definition post_inventory_deduct (body : DeductRequest) (db : Db)
  : HttpResponse * Db * list DbOp :=
  match req_productId body, req_quantity body, req_orderId body with
  | Some productId, Some quantity, Some orderId =>
      if negb (truthy (JStr productId)) || negb (truthy (JNum quantity))
         || negb (truthy (JStr orderId))
      then (mkResponse 400
              [("error", JStr "Missing productId, quantity, or orderId")],
            db, [])
      else
        match deductInventory productId quantity orderId db with
        | (Returned result, db', ops) =>
            (mkResponse 200 [("message", JStr (message result));
                             ("success", JBool (success result))],
             db', ops)
        | (Threw msg, db', ops) =>
            (mkResponse 400 [("error", JStr msg)], db', ops)
        end
  | _, _, _ =>
      (mkResponse 400
         [("error", JStr "Missing productId, quantity, or orderId")],
       db, [])
  end.

(** What the handler of a delivered message did with the channel. *)
Record Handled : Type := mkHandled {
  published : list Broker.CompletionEvent;
  acked : bool
}.

(** The callback of [channel.consume('inventory_queue', ...)]. *)
Definition on_inventory_message (msg : option Broker.WorkItem) (db : Db)
  : Handled * Db :=
  match msg with
  | None => (mkHandled [] false, db)
  | Some data =>
      match deductInventory (Broker.productId data) (Broker.quantity data)
                            (Broker.orderId data) db with
      | (Returned _, db', _) =>
          (mkHandled
             [Broker.mkCompletionEvent (Broker.orderId data) (JStr "COMPLETED")
                (JStr "Inventory deducted successfully (Async)")]
             true,
           db')
      | (Threw _, db', _) => (mkHandled [] true, db')
      end
  end.

(** The broker delivers the head of [inventory_queue] to the consumer; an
    acknowledged message leaves the queue, an unacknowledged one stays. *)
Definition deliver_inventory_queue (q : Broker.Queues) (db : Db)
  : Broker.Queues * Db :=
  match Broker.inventory_queue q with
  | [] => (q, db)
  | msg :: rest =>
      let '(h, db') := on_inventory_message (Some msg) db in
      (Broker.mkQueues (if acked h then rest else msg :: rest)
                       (Broker.order_completion_queue q ++ published h),
       db')
  end.

End Inventory.

(* ===================================================================== *)
(** * Order service *)
(* ===================================================================== *)

Module Orders.

(** The five literals the service writes into [order.status]. *)
Inductive OrderStatus : Type :=
| PENDING
| CONFIRMED
| QUEUED
| COMPLETED
| FAILED.

#[global] Instance OrderStatus_eq_dec : EqDecision OrderStatus.
Proof. solve_decision. Defined.

Definition status_name (st : OrderStatus) : string :=
  match st with
  | PENDING => "PENDING"
  | CONFIRMED => "CONFIRMED"
  | QUEUED => "QUEUED"
  | COMPLETED => "COMPLETED"
  | FAILED => "FAILED"
  end.

(** The terminal states of the order life cycle. *)
Definition terminal (st : OrderStatus) : bool :=
  match st with
  | CONFIRMED | COMPLETED | FAILED => true
  | PENDING | QUEUED => false
  end.

(** A row of the [order] table ([createdAt] plays no part and is left
    out). *)
Record Order : Type := mkOrder {
  id : string;
  productId : string;
  quantity : Z;
  status : OrderStatus
}.

#[global] Instance Order_eq_dec : EqDecision Order.
Proof. solve_decision. Defined.

(** [res.json(order)] *)
Definition order_json (o : Order) : JsObject :=
  [("id", JStr (id o)); ("productId", JStr (productId o));
   ("quantity", JNum (quantity o)); ("status", JStr (status_name (status o)))].

(** Everything a request to the order service can reach: its own table
    and channel, the broker's queues, and the inventory service behind the
    HTTP call. [statusWrites] lists the status writes to the order table in
    the order they were made; [inflight] holds the deduct requests whose
    caller stopped waiting (the inventory service still runs them). *)
Record System : Type := mkSystem {
  order : gmap string Order;
  statusWrites : list (string * OrderStatus);
  channel : Broker.Channel;
  queues : Broker.Queues;
  inventory : Inventory.Db;
  inflight : list Inventory.DeductRequest
}.

Definition with_order (f : gmap string Order -> gmap string Order)
  (w : string * OrderStatus) (s : System) : System :=
  mkSystem (f (order s)) (statusWrites s ++ [w]) (channel s) (queues s)
           (inventory s) (inflight s).

(** [prisma.order.create({ data })]; [newId] is the id the database
    generates for the row. *)
Definition order_create (o : Order) (s : System) : System :=
  with_order (insert (id o) o) (id o, status o) s.

(** [prisma.order.update({ where: { id }, data: { status } })]; resolves to
    the updated row, throws when there is no such row. *)
Definition order_update (orderId : string) (st : OrderStatus) (s : System)
  : Outcome Order * System :=
  match order s !! orderId with
  | Some o =>
      let o' := mkOrder (id o) (productId o) (quantity o) st in
      (Returned o', with_order (insert orderId o') (orderId, st) s)
  | None => (Threw "Record to update not found", s)
  end.

(** [channel.sendToQueue('inventory_queue', Buffer.from(msg))] on an open
    channel. *)
Definition sendToQueue (item : Broker.WorkItem) (s : System) : System :=
  mkSystem (order s) (statusWrites s) (channel s)
           (Broker.mkQueues (Broker.inventory_queue (queues s) ++ [item])
                            (Broker.order_completion_queue (queues s)))
           (inventory s) (inflight s).

(** ** The deadline-bounded call to the inventory service *)

Definition TIMEOUT_MS : Z := 2000.
Definition GREMLIN_DELAY_MS : Z := 5000.

(** The error object axios rejects with. *)
Record AxiosError : Type := mkError {
  code : option string;
  error_message : string
}.

(** How long the inventory service takes to answer: the [latency] of the
    network and of the database work, plus the stall of the gremlin flag. *)
Definition response_time (latency : Z) (gremlin : JsVal) : Z :=
  if strict_eq_true gremlin
  then latency + GREMLIN_DELAY_MS
  else latency.

(** [axios.post(INVENTORY_SERVICE_URL + '/inventory/deduct', body,
    { timeout: 2000 })]: rejects with [ECONNABORTED] once the deadline has
    passed, rejects on a status outside 2xx, resolves otherwise. *)
Definition axios_post_deduct (latency : Z) (body : Inventory.DeductRequest)
  (s : System) : (AxiosError + HttpResponse) * System :=
  if TIMEOUT_MS <? response_time latency (Inventory.req_gremlin body) then
    (inl (mkError (Some "ECONNABORTED") "timeout of 2000ms exceeded"),
     mkSystem (order s) (statusWrites s) (channel s) (queues s) (inventory s)
              (inflight s ++ [body]))
  else
    let '(resp, db', _) := Inventory.post_inventory_deduct body (inventory s) in
    let s' := mkSystem (order s) (statusWrites s) (channel s) (queues s) db'
                       (inflight s) in
    if (200 <=? statusCode resp) && (statusCode resp <? 300)
    then (inr resp, s')
    else (inl (mkError (Some "ERR_BAD_REQUEST")
                 (String.append "Request failed with status code "
                                (pretty (statusCode resp)))),
          s').

(** ** [POST /orders] *)

Record OrderRequest : Type := mkOrderRequest {
  body_productId : option string;
  body_quantity : option Z;
  body_gremlin : JsVal
}.

(** [!productId || !quantity] *)
Definition missing_fields (body : OrderRequest) : bool :=
  negb (truthy (js_str (body_productId body)))
  || negb (truthy (js_num (body_quantity body))).

(** [let errorMessage], never reassigned. *)
Definition errorMessage : string := "Order failed due to inventory issue".

(** The "General Failure" tail of the handler. [None] is a rejection that
    leaves the handler before any response is sent. *)
Definition general_failure (orderId : string) (s : System)
  : option HttpResponse * System :=
  match order_update orderId FAILED s with
  | (Returned _, s') =>
      (Some (mkResponse 503 [("error", JStr errorMessage);
                             ("orderId", JStr orderId);
                             ("status", JStr "FAILED")]),
       s')
  | (Threw _, s') => (None, s')
  end.

(** [error.code === 'ECONNABORTED' || error.message.includes('timeout')] *)
Definition is_timeout (error : AxiosError) : bool :=
  strict_eq_str (js_str (code error)) "ECONNABORTED"
  || includes (error_message error) "timeout".

(** The [catch (error)] block of the handler. *)
Definition on_inventory_error (error : AxiosError) (o : Order) (s : System)
  : option HttpResponse * System :=
  if is_timeout error then
    match channel s with
    | Broker.ChannelOpen =>
        let s1 := sendToQueue
                    (Broker.mkWorkItem (productId o) (quantity o) (id o)) s in
        match order_update (id o) QUEUED s1 with
        | (Returned _, s2) =>
            (Some (mkResponse 202
                     [("message",
                       JStr "Order timed out, queued for async processing");
                      ("status", JStr "QUEUED");
                      ("id", JStr (id o))]),
             s2)
        | (Threw _, s2) => general_failure (id o) s2
        end
    | Broker.ChannelClosed => general_failure (id o) s
    | Broker.NoChannel => general_failure (id o) s
    end
  else general_failure (id o) s.

(** [app.post('/orders', ...)] *)
Definition post_orders (newId : string) (latency : Z) (body : OrderRequest)
  (s : System) : option HttpResponse * System :=
  if missing_fields body then
    (Some (mkResponse 400 [("error", JStr "Missing productId or quantity")]), s)
  else
    match body_productId body, body_quantity body with
    | Some productId, Some quantity =>
        let o := mkOrder newId productId quantity PENDING in
        let s1 := order_create o s in
        match axios_post_deduct latency
                (Inventory.mkDeductRequest (Some productId) (Some quantity)
                   (Some newId) (body_gremlin body)) s1 with
        | (inr inventoryResponse, s2) =>
            if statusCode inventoryResponse =? 200 then
              match order_update newId CONFIRMED s2 with
              | (Returned updatedOrder, s3) =>
                  (Some (mkResponse 201 (order_json updatedOrder)), s3)
              | (Threw msg, s3) =>
                  on_inventory_error (mkError (Some "P2025") msg) o s3
              end
            else
              on_inventory_error (mkError None "Inventory deduction failed") o s2
        | (inl error, s2) => on_inventory_error error o s2
        end
    | _, _ =>
        (Some (mkResponse 400 [("error", JStr "Missing productId or quantity")]),
         s)
    end.

(** ** The consumer of [order_completion_queue] *)

(** [(data.status === 'COMPLETED' || data.status === 'FAILED')
     ? data.status : 'COMPLETED'] *)
Definition completion_status (v : JsVal) : OrderStatus :=
  if strict_eq_str v "COMPLETED" || strict_eq_str v "FAILED"
  then (if strict_eq_str v "FAILED" then FAILED else COMPLETED)
  else COMPLETED.

(** The callback of [channel.consume('order_completion_queue', ...)]: the
    update is attempted, a failure of it is logged and swallowed, and the
    message is acknowledged either way. The boolean is the acknowledgement. *)
Definition on_completion_message (msg : option Broker.CompletionEvent)
  (s : System) : bool * System :=
  match msg with
  | None => (false, s)
  | Some data =>
      let st := completion_status (Broker.ev_status data) in
      match order_update (Broker.ev_orderId data) st s with
      | (Returned _, s') => (true, s')
      | (Threw _, s') => (true, s')
      end
  end.

(** Alias used by the specification. *)
Definition applyCompletion (event : Broker.CompletionEvent) (s : System)
  : System :=
  snd (on_completion_message (Some event) s).

(** ** The environment's moves *)

(** The broker delivers the head of [order_completion_queue]. *)
Definition deliver_completion (s : System) : System :=
  match Broker.order_completion_queue (queues s) with
  | [] => s
  | event :: rest =>
      let '(ack, s') := on_completion_message (Some event) s in
      mkSystem (order s') (statusWrites s') (channel s')
        (Broker.mkQueues (Broker.inventory_queue (queues s'))
           (if ack then rest else event :: rest))
        (inventory s') (inflight s')
  end.

(** The broker delivers the head of [inventory_queue] to the inventory
    service. *)
Definition deliver_inventory (s : System) : System :=
  let '(q, db) := Inventory.deliver_inventory_queue (queues s) (inventory s) in
  mkSystem (order s) (statusWrites s) (channel s) q db (inflight s).

(** The inventory service gets to the oldest request whose caller stopped
    waiting; its response goes nowhere. *)
Definition finish_inflight (s : System) : System :=
  match inflight s with
  | [] => s
  | body :: rest =>
      let '(_, db, _) := Inventory.post_inventory_deduct body (inventory s) in
      mkSystem (order s) (statusWrites s) (channel s) (queues s) db rest
  end.

End Orders.

(* ===================================================================== *)
(** * JavaScript numbers *)
(* ===================================================================== *)

Module Binary64.

(** [Number.MAX_SAFE_INTEGER], 2^53 - 1: the integers up to it in absolute
    value are binary64 numbers, and a sum or difference of two of them that
    stays within it is computed exactly. *)
Definition MAX_SAFE_INTEGER : Z := 9007199254740991.

(** The number an integer denotes. The conversion is exact up to 2^53 in
    absolute value; time stamps (at most 8.64e15 ms), their differences and
    array lengths are all below that. *)
Fixpoint number_of_pos (p : positive) : float :=
  match p with
  | xH => 1%float
  | xO p' => PrimFloat.mul 2%float (number_of_pos p')
  | xI p' => PrimFloat.add (PrimFloat.mul 2%float (number_of_pos p')) 1%float
  end.

Definition number_of_Z (z : Z) : float :=
  match z with
  | Z0 => 0%float
  | Zpos p => number_of_pos p
  | Zneg p => PrimFloat.opp (number_of_pos p)
  end.

(** [product.stock < quantity] and [product.stock - quantity] of
    [deductInventory], on the numbers themselves. *)
Definition below (stock quantity : float) : bool := PrimFloat.ltb stock quantity.
Definition difference (stock quantity : float) : float :=
  PrimFloat.sub stock quantity.

End Binary64.

(* ===================================================================== *)
(** * Rolling-window latency statistics *)
(* ===================================================================== *)

Module Stats.

Definition WINDOW_SIZE_MS : Z := 30000.

(** An entry of [requestDurations]: [time] is [Date.now()] in milliseconds,
    [duration] is in seconds, a binary64 number. *)
Record Sample : Type := mkSample {
  time : Z;
  duration : float
}.

(** [r => now - r.time <= WINDOW_SIZE_MS] *)
Definition fresh (now : Z) (r : Sample) : bool :=
  now - time r <=? WINDOW_SIZE_MS.

(** The periodic cleanup run by [setInterval]. *)
Definition cleanup (now : Z) (requestDurations : list Sample) : list Sample :=
  List.filter (fresh now) requestDurations.

(** [requestDurations.push({ time: Date.now(), duration })] where
    [duration = (Date.now() - start) / 1000]. *)
Definition record (start finish : Z) (requestDurations : list Sample)
  : list Sample :=
  requestDurations
  ++ [mkSample finish
        (PrimFloat.div (Binary64.number_of_Z (finish - start)) 1000%float)].

Record StatsResponse : Type := mkStats {
  averageLatency : float;
  requestCount : nat
}.

(** [app.get('/stats', ...)] *)
Definition stats (now : Z) (requestDurations : list Sample) : StatsResponse :=
  let validDurations := List.filter (fresh now) requestDurations in
  let count := length validDurations in
  let totalDuration :=
    fold_left (fun sum r => PrimFloat.add sum (duration r)) validDurations
              0%float in
  let average :=
    if (0 <? count)%nat
    then PrimFloat.div totalDuration (Binary64.number_of_Z (Z.of_nat count))
    else 0%float in
  mkStats average count.

Definition average (now : Z) (requestDurations : list Sample) : float :=
  averageLatency (stats now requestDurations).

(** ** The specification's words *)

(** The age of a sample at read time. *)
Definition age (now : Z) (r : Sample) : Z := now - time r.

(** The durations of the samples inside the trailing 30-second window. *)
Fixpoint window (now : Z) (samples : list Sample) : list float :=
  match samples with
  | [] => []
  | r :: rest =>
      if Z_le_dec (age now r) (30 * 1000)
      then duration r :: window now rest
      else window now rest
  end.

(** The sum of a list of durations formed from 0, left to right, each
    addition rounded to binary64; and that sum divided, in binary64, by
    the number of durations: their mean up to rounding. *)
Definition rounded_sum (l : list float) : float :=
  fold_left PrimFloat.add l 0%float.

Definition rounded_mean (l : list float) : float :=
  PrimFloat.div (rounded_sum l) (Binary64.number_of_Z (Z.of_nat (length l))).

(** 0.1, 0.2 and 0.15 as binary64 numbers, and the numbers just above 0.1
    and 0.15. *)
Definition tenth : float := 0x1.999999999999ap-4%float.
Definition above_tenth : float := 0x1.999999999999bp-4%float.
Definition fifth : float := 0x1.999999999999ap-3%float.
Definition three_twentieths : float := 0x1.3333333333333p-3%float.
Definition above_three_twentieths : float := 0x1.3333333333334p-3%float.

End Stats.

(* ===================================================================== *)
(** * Reading a response, and a small deployment to run the handlers on *)
(* ===================================================================== *)

(** Some string field of the response body contains [needle]. *)
Definition mentions (needle : string) (resp : HttpResponse) : bool :=
  existsb (fun kv => match snd kv with
                     | JStr text => includes text needle
                     | _ => false
                     end) (json resp).

Module Scenario.

(** One product with 20 units in stock, no order fulfilled yet. *)
Definition seeded : Inventory.Db :=
  Inventory.mkDb ({["p1" := Inventory.mkProduct "Flux Capacitor" 20]}) ∅.

(** A deployment with an empty order table and empty queues, around
    [seeded], with the order service's channel in state [ch]. *)
Definition deployment (ch : Broker.Channel) : Orders.System :=
  Orders.mkSystem ∅ [] ch (Broker.mkQueues [] []) seeded [].

(** A plain request for [quantity] units of ["p1"], and the same request
    with the gremlin flag set. *)
Definition plain (quantity : Z) : Orders.OrderRequest :=
  Orders.mkOrderRequest (Some "p1") (Some quantity) (JBool false).
Definition gremlin (quantity : Z) : Orders.OrderRequest :=
  Orders.mkOrderRequest (Some "p1") (Some quantity) (JBool true).

(** The deployment after an order for one unit has ended in [st]. *)
Definition placed (st : Orders.OrderStatus) : Orders.System :=
  Orders.mkSystem {["o1" := Orders.mkOrder "o1" "p1" 1 st]} [("o1", st)]
    Broker.ChannelOpen (Broker.mkQueues [] []) seeded [].

End Scenario.

(* ===================================================================== *)
(** * Further parts of the services *)
(* ===================================================================== *)

(** ** The responses of [POST /orders] *)

Module Responses.

Definition queued_response (newId : string) : HttpResponse :=
  mkResponse 202 [("message", JStr "Order timed out, queued for async processing");
                  ("status", JStr "QUEUED"); ("id", JStr newId)].

Definition failed_response (newId : string) : HttpResponse :=
  mkResponse 503 [("error", JStr "Order failed due to inventory issue");
                  ("orderId", JStr newId); ("status", JStr "FAILED")].

Definition invalid_response : HttpResponse :=
  mkResponse 400 [("error", JStr "Missing productId or quantity")].

End Responses.

(** ** Seeding of the product table *)

Module Seeding.
Import Inventory.

(** The rows of [seedProducts]: name and stock. *)
Definition seed_data : list (string * Z) :=
  [("Quantum Processor", 100); ("Neural Interface", 50);
   ("Flux Capacitor", 20); ("Hyperdrive Unit", 10)].

(** [prisma.product.createMany({ data })]: one row per element of [data],
    each under the id the database generates for it ([ids], one per
    row). *)
Definition product_createMany (ids : list string) (data : list (string * Z))
  (db : Db) : Db :=
  mkDb (fold_left (fun m row => <[fst row := mkProduct (fst (snd row)) (snd (snd row))]> m)
                  (zip ids data) (product db))
       (idempotencyLog db).

(** [seedProducts]: rows are created only when [prisma.product.count()]
    is 0. *)
Definition seedProducts (ids : list string) (db : Db) : Db :=
  if (size (product db) =? 0)%nat
  then product_createMany ids seed_data db
  else db.

End Seeding.

(** ** The inventory endpoint serving one request after another *)

Module Serving.
Import Inventory.

Fixpoint serve (requests : list DeductRequest) (db : Db)
  : list HttpResponse * Db :=
  match requests with
  | [] => ([], db)
  | body :: rest =>
      let '(resp, db1, _) := post_inventory_deduct body db in
      let '(resps, db2) := serve rest db1 in
      (resp :: resps, db2)
  end.

(** [!productId || !quantity || !orderId] *)
Definition lacks_field (body : DeductRequest) : bool :=
  negb (truthy (js_str (req_productId body)))
  || negb (truthy (js_num (req_quantity body)))
  || negb (truthy (js_str (req_orderId body))).

(** The response to a body that fails the check of the endpoint. *)
Definition missing_response : HttpResponse :=
  mkResponse 400 [("error", JStr "Missing productId, quantity, or orderId")].

(** The response of a call that deducted stock. *)
Definition deducted (resp : HttpResponse) : bool :=
  bool_decide (resp = mkResponse 200 [("message", JStr (message Applied));
                                      ("success", JBool (success Applied))]).

(** The orders, in request order, whose request was answered with a
    deduction. *)
Fixpoint deducted_orders (requests : list DeductRequest)
  (resps : list HttpResponse) : list string :=
  match requests, resps with
  | body :: rest, resp :: resps' =>
      match req_orderId body with
      | Some orderId =>
          if deducted resp then orderId :: deducted_orders rest resps'
          else deducted_orders rest resps'
      | None => deducted_orders rest resps'
      end
  | _, _ => []
  end.


End Serving.

(** ** Connecting to the broker *)

Module Supervisor.

(** How one pass through the [try] of [connectToRabbit] ends: at
    [amqp.connect], at [createChannel], at one of the [assertQueue]s (the
    variable [channel] is assigned by then), or at the [break]. *)
Inductive Attempt : Type :=
| ConnectFails
| CreateChannelFails
| AssertQueueFails
| Connected.

Definition RETRY_DELAY_MS : Z := 5000.

(** The service as the loop sees it: its [channel] variable, whether the
    consumer is registered, and the time spent in [setTimeout]. *)
Record Service : Type := mkService {
  channel : Broker.Channel;
  consuming : bool;
  slept : Z
}.

(** [connectToRabbit], [while (true)] unrolled over the outcomes of the
    successive attempts; [None] when the loop is still retrying after the
    last of them. *)
Fixpoint connectToRabbit (attempts : list Attempt) (sv : Service)
  : option Service :=
  match attempts with
  | [] => None
  | ConnectFails :: rest | CreateChannelFails :: rest =>
      connectToRabbit rest
        (mkService (channel sv) (consuming sv) (slept sv + RETRY_DELAY_MS))
  | AssertQueueFails :: rest =>
      connectToRabbit rest
        (mkService Broker.ChannelClosed (consuming sv)
                   (slept sv + RETRY_DELAY_MS))
  | Connected :: _ =>
      Some (mkService Broker.ChannelOpen true (slept sv))
  end.

(** The attempts that fail before the first that succeeds. *)
Fixpoint failures_before_success (attempts : list Attempt) : nat :=
  match attempts with
  | [] => 0
  | Connected :: _ => 0
  | _ :: rest => S (failures_before_success rest)
  end.

End Supervisor.

(** ** The dashboard's polling of queued orders *)

Module Dashboard.

(** [orders.find((o) => o.id === id)] *)
Definition find_order (orders : list Orders.Order) (id : string)
  : option Orders.Order :=
  List.find (fun o => String.eqb (Orders.id o) id) orders.

(** The callback of [queuedOrderIds.filter]: an id is dropped when the
    order found for it is COMPLETED or FAILED, and kept otherwise. *)
Definition keep_polling (orders : list Orders.Order) (id : string) : bool :=
  let status := match find_order orders id with
                | Some o => JStr (Orders.status_name (Orders.status o))
                | None => JUndefined
                end in
  if strict_eq_str status "COMPLETED" then false
  else if strict_eq_str status "FAILED" then false
  else true.

(** One tick of the poller: the new value of [queuedOrderIds]. The state
    is set only when the length changed. *)
Definition poll (orders : list Orders.Order) (queuedOrderIds : list string)
  : list string :=
  let remaining := List.filter (keep_polling orders) queuedOrderIds in
  if negb (length remaining =? length queuedOrderIds)%nat
  then remaining
  else queuedOrderIds.

End Dashboard.

(* ===================================================================== *)
(** * Properties of the inventory service *)
(* ===================================================================== *)

Module InventoryFacts.
Import Inventory.

Section Deduct.
Variables (productId : string) (quantity : Z) (orderId : string).
Variable db : Db.

(** A transaction that throws leaves the database as it found it. *)
Lemma transaction_rollback {A} (body : Prisma A) msg db' ops :
  transaction body db = (Threw msg, db', ops) -> db' = db.
Proof.
  unfold transaction. destruct (body db) as [[[a|m] d] o]; congruence.
Qed.

Lemma deductInventory_existing :
  orderId ∈ idempotencyLog db ->
  deductInventory productId quantity orderId db
  = (Returned AlreadyApplied, db, [IdempotencyFindUnique orderId]).
Proof.
  intros Hin. unfold deductInventory, bind, idempotencyLog_findUnique.
  rewrite bool_decide_eq_true_2 by assumption. reflexivity.
Qed.

Lemma deductInventory_missing :
  orderId ∉ idempotencyLog db ->
  product db !! productId = None ->
  deductInventory productId quantity orderId db
  = (Threw InsufficientStock, db,
     [IdempotencyFindUnique orderId; ProductFindUnique productId]).
Proof.
  intros Hnin Hp.
  unfold deductInventory, bind, idempotencyLog_findUnique, transaction,
    deduct_tx, bind, product_findUnique.
  rewrite bool_decide_eq_false_2 by assumption. rewrite Hp. reflexivity.
Qed.

Lemma deductInventory_insufficient p :
  orderId ∉ idempotencyLog db ->
  product db !! productId = Some p ->
  stock p < quantity ->
  deductInventory productId quantity orderId db
  = (Threw InsufficientStock, db,
     [IdempotencyFindUnique orderId; ProductFindUnique productId]).
Proof.
  intros Hnin Hp Hlt.
  unfold deductInventory, bind, idempotencyLog_findUnique, transaction,
    deduct_tx, bind, product_findUnique.
  rewrite bool_decide_eq_false_2 by assumption. rewrite Hp.
  apply Z.ltb_lt in Hlt. rewrite Hlt. reflexivity.
Qed.

Lemma deductInventory_fresh p :
  orderId ∉ idempotencyLog db ->
  product db !! productId = Some p ->
  quantity <= stock p ->
  deductInventory productId quantity orderId db
  = (Returned Applied,
     mkDb (<[productId := mkProduct (name p) (stock p - quantity)]> (product db))
          ({[orderId]} ∪ idempotencyLog db),
     [IdempotencyFindUnique orderId; ProductFindUnique productId;
      ProductUpdate productId (stock p - quantity);
      IdempotencyCreate orderId]).
Proof.
  intros Hnin Hp Hle.
  unfold deductInventory, bind, idempotencyLog_findUnique, transaction,
    deduct_tx, bind, product_findUnique, product_update,
    idempotencyLog_create.
  rewrite bool_decide_eq_false_2 by assumption. rewrite Hp.
  apply Z.ltb_ge in Hle. rewrite Hle. cbn.
  rewrite Hp. cbn. rewrite bool_decide_eq_false_2 by assumption.
  reflexivity.
Qed.

Lemma deductInventory_cases :
  deduct_case productId quantity orderId db
    (deductInventory productId quantity orderId db).
Proof.
  destruct (decide (orderId ∈ idempotencyLog db)) as [Hin|Hnin].
  - rewrite deductInventory_existing by assumption. now constructor.
  - destruct (product db !! productId) as [p|] eqn:Hp.
    + destruct (Z_lt_le_dec (stock p) quantity) as [Hlt|Hle].
      * rewrite (deductInventory_insufficient p) by assumption.
        eapply case_insufficient; eassumption.
      * rewrite (deductInventory_fresh p) by assumption.
        eapply case_fresh; eassumption.
    + rewrite deductInventory_missing by assumption. now constructor.
Qed.

End Deduct.

(** A call that returns leaves a record for its order behind. *)
Lemma deductInventory_returned_logged productId quantity orderId db r db1 ops :
  deductInventory productId quantity orderId db = (Returned r, db1, ops) ->
  orderId ∈ idempotencyLog db1.
Proof.
  intros H. pose proof (deductInventory_cases productId quantity orderId db) as C.
  rewrite H in C. inversion C; subst; cbn; [assumption | set_solver].
Qed.

(** A call that throws changes nothing. *)
Lemma deductInventory_threw_unchanged productId quantity orderId db msg db1 ops :
  deductInventory productId quantity orderId db = (Threw msg, db1, ops) ->
  db1 = db /\ msg = InsufficientStock /\ stock_writes ops = [].
Proof.
  intros H. pose proof (deductInventory_cases productId quantity orderId db) as C.
  rewrite H in C. inversion C; subst; auto.
Qed.

(** ** Idempotence of the fulfilment (C1) *)

(** Whatever the first call did, a second call with the same arguments
    changes nothing and writes nothing: the stock is written at most once
    over the two calls. *)
Lemma second_call_changes_nothing productId quantity orderId db :
  let '(_, db1, ops1) := deductInventory productId quantity orderId db in
  let '(_, db2, ops2) := deductInventory productId quantity orderId db1 in
  db2 = db1
  /\ stock_writes ops2 = []
  /\ (length (stock_writes (ops1 ++ ops2)) <= 1)%nat.
Proof.
  destruct (deductInventory_cases productId quantity orderId db) as
    [Hin | Hnin Hp | p Hnin Hp Hlt | p Hnin Hp Hle].
  - rewrite deductInventory_existing by assumption. cbn. auto.
  - rewrite deductInventory_missing by assumption. cbn. auto.
  - rewrite (deductInventory_insufficient _ _ _ _ p) by assumption. cbn. auto.
  - rewrite deductInventory_existing by (cbn; set_solver). cbn. auto.
Qed.

(** C1. Calling [deductInventory] twice with the same [orderId], product
    and quantity decrements the stock exactly once: once the first call has
    returned, the second call finds the idempotency record, returns
    [AlreadyApplied] (a success), issues no operation on the stock ledger
    and leaves the database as the first call left it. For an order with no
    record before the first call, the stock after both calls is the
    initial stock minus [quantity], and the two calls together wrote the
    ledger once. *)
Theorem fulfill_twice_decrements_once productId quantity orderId db r1 db1 ops1 :
  deductInventory productId quantity orderId db = (Returned r1, db1, ops1) ->
  exists ops2,
    deductInventory productId quantity orderId db1
    = (Returned AlreadyApplied, db1, ops2)
    /\ success AlreadyApplied = true
    /\ ledger_ops ops2 = []
    /\ (orderId ∉ idempotencyLog db ->
        exists p,
          product db !! productId = Some p
          /\ product db1 !! productId
             = Some (mkProduct (name p) (stock p - quantity))
          /\ length (stock_writes (ops1 ++ ops2)) = 1%nat)
    /\ (orderId ∈ idempotencyLog db ->
        db1 = db /\ stock_writes (ops1 ++ ops2) = []).
Proof.
  intros H1.
  pose proof (deductInventory_returned_logged _ _ _ _ _ _ _ H1) as Hlog.
  exists [IdempotencyFindUnique orderId].
  split; [now apply deductInventory_existing|].
  split; [reflexivity|]. split; [reflexivity|].
  pose proof (deductInventory_cases productId quantity orderId db) as C.
  rewrite H1 in C. inversion C; subst; clear C.
  - split; [intros Hn; contradiction | intros _; split; reflexivity].
  - split; [| intros Hin; contradiction].
    intros _. exists p. split; [assumption|]. split; [|reflexivity].
    cbn. apply lookup_insert_eq.
Qed.

Lemma fulfill_twice_decrements_once_witness :
  deductInventory "p1" 3 "o1" Scenario.seeded
  = (Returned Applied,
     mkDb ({["p1" := mkProduct "Flux Capacitor" 17]}) {["o1"]},
     [IdempotencyFindUnique "o1"; ProductFindUnique "p1";
      ProductUpdate "p1" 17; IdempotencyCreate "o1"])
  /\ exists ops2,
      deductInventory "p1" 3 "o1"
        (mkDb ({["p1" := mkProduct "Flux Capacitor" 17]}) {["o1"]})
      = (Returned AlreadyApplied,
         mkDb ({["p1" := mkProduct "Flux Capacitor" 17]}) {["o1"]}, ops2)
      /\ ledger_ops ops2 = [].
Proof.
  assert (H : deductInventory "p1" 3 "o1" Scenario.seeded
              = (Returned Applied,
                 mkDb ({["p1" := mkProduct "Flux Capacitor" 17]}) {["o1"]},
                 [IdempotencyFindUnique "o1"; ProductFindUnique "p1";
                  ProductUpdate "p1" 17; IdempotencyCreate "o1"]))
    by (vm_compute; reflexivity).
  split; [exact H|].
  destruct (fulfill_twice_decrements_once _ _ _ _ _ _ _ H)
    as (ops2 & H2 & _ & Hl & _).
  exists ops2. split; assumption.
Defined.

(** ** Insufficient stock (C3) *)

(** Either both writes of a call are in the database afterwards or the
    database is the one the call started from. *)
Lemma deductInventory_atomic productId quantity orderId db :
  let '(_, db1, _) := deductInventory productId quantity orderId db in
  db1 = db
  \/ (exists p, product db !! productId = Some p
       /\ product db1 = <[productId := mkProduct (name p) (stock p - quantity)]> (product db)
       /\ idempotencyLog db1 = {[orderId]} ∪ idempotencyLog db).
Proof.
  destruct (deductInventory_cases productId quantity orderId db);
    [left; reflexivity .. |].
  right. exists p. auto.
Qed.

(** C3. A [deductInventory] call for an order with no idempotency record,
    on a product whose stock is below the requested quantity, throws the
    insufficient-stock error and commits neither write: it issues no write
    operation, and the database afterwards (stock ledger and idempotency
    log) is the database before, so the stock is unchanged and no record
    exists for the order. *)
Theorem insufficient_stock_commits_nothing productId quantity orderId db p :
  orderId ∉ idempotencyLog db ->
  product db !! productId = Some p ->
  stock p < quantity ->
  exists db1 ops,
    deductInventory productId quantity orderId db
    = (Threw InsufficientStock, db1, ops)
    /\ db1 = db
    /\ db_writes ops = []
    /\ product db1 !! productId = Some p
    /\ orderId ∉ idempotencyLog db1.
Proof.
  intros Hnin Hp Hlt. exists db. eexists. split.
  - now apply deductInventory_insufficient with p.
  - repeat split; auto.
Qed.

Lemma insufficient_stock_commits_nothing_witness :
  exists db1 ops,
    deductInventory "p1" 21 "o1" Scenario.seeded = (Threw InsufficientStock, db1, ops)
    /\ db1 = Scenario.seeded
    /\ db_writes ops = []
    /\ product db1 !! "p1" = Some (mkProduct "Flux Capacitor" 20)
    /\ "o1" ∉ idempotencyLog db1.
Proof.
  apply (insufficient_stock_commits_nothing "p1" 21 "o1" Scenario.seeded
           (mkProduct "Flux Capacitor" 20)).
  - vm_compute. discriminate.
  - vm_compute. reflexivity.
  - simpl. lia.
Defined.

End InventoryFacts.

(* ===================================================================== *)
(** * Properties of the order service *)
(* ===================================================================== *)

Module OrderFacts.
Import Orders.

(** Unfold the state updates and project the fields of the result. *)
Ltac sys_cbn :=
  unfold order_create, with_order, sendToQueue;
  cbn [Orders.order Orders.statusWrites Orders.channel Orders.queues
       Orders.inventory Orders.inflight
       Orders.id Orders.productId Orders.quantity Orders.status
       Broker.inventory_queue Broker.order_completion_queue
       statusCode json fst snd].

Lemma truthy_str s : s <> "" -> truthy (JStr s) = true.
Proof.
  intros H. cbn. apply negb_true_iff. now apply String.eqb_neq.
Qed.

Lemma truthy_num n : n <> 0 -> truthy (JNum n) = true.
Proof.
  intros H. cbn. apply negb_true_iff. now apply Z.eqb_neq.
Qed.

Lemma missing_fields_false productId quantity gremlin :
  productId <> "" -> quantity <> 0 ->
  missing_fields (mkOrderRequest (Some productId) (Some quantity) gremlin) = false.
Proof.
  intros Hp Hq. unfold missing_fields. cbn [body_productId body_quantity js_str js_num].
  now rewrite truthy_str, truthy_num.
Qed.

Lemma order_update_found orderId st s o :
  order s !! orderId = Some o ->
  order_update orderId st s
  = (Returned (mkOrder (id o) (productId o) (quantity o) st),
     with_order (insert orderId (mkOrder (id o) (productId o) (quantity o) st))
                (orderId, st) s).
Proof. intros H. unfold order_update. now rewrite H. Qed.

Lemma order_update_missing orderId st s :
  order s !! orderId = None ->
  order_update orderId st s = (Threw "Record to update not found", s).
Proof. intros H. unfold order_update. now rewrite H. Qed.

(** The "General Failure" tail on an order that exists. *)
Lemma general_failure_found orderId s o :
  order s !! orderId = Some o ->
  general_failure orderId s
  = (Some (mkResponse 503 [("error", JStr errorMessage);
                           ("orderId", JStr orderId);
                           ("status", JStr "FAILED")]),
     with_order (insert orderId (mkOrder (id o) (productId o) (quantity o) FAILED))
                (orderId, FAILED) s).
Proof.
  intros H. unfold general_failure. now rewrite (order_update_found _ _ _ _ H).
Qed.

(** The call made after the deadline has passed. *)
Lemma axios_post_deduct_late latency body s :
  TIMEOUT_MS < response_time latency (Inventory.req_gremlin body) ->
  axios_post_deduct latency body s
  = (inl (mkError (Some "ECONNABORTED") "timeout of 2000ms exceeded"),
     mkSystem (order s) (statusWrites s) (channel s) (queues s) (inventory s)
              (inflight s ++ [body])).
Proof.
  intros H. unfold axios_post_deduct. apply Z.ltb_lt in H. now rewrite H.
Qed.

Example includes_finds_substring :
  includes "timeout of 2000ms exceeded" "timeout" = true
  /\ includes "Request failed with status code 400" "timeout" = false
  /\ includes "a timeout" "timeout" = true.
Proof. repeat split; reflexivity. Qed.

Lemma timeout_error_is_timeout :
  is_timeout (mkError (Some "ECONNABORTED") "timeout of 2000ms exceeded") = true.
Proof. reflexivity. Qed.

Lemma bad_request_is_not_timeout :
  is_timeout (mkError (Some "ERR_BAD_REQUEST")
                (String.append "Request failed with status code " (pretty 400)))
  = false.
Proof. vm_compute. reflexivity. Qed.

(** The handler on a well-formed body, up to the outcome of the call. *)
Lemma post_orders_valid newId latency productId quantity gremlin s :
  productId <> "" -> quantity <> 0 ->
  post_orders newId latency (mkOrderRequest (Some productId) (Some quantity) gremlin) s
  = let o := mkOrder newId productId quantity PENDING in
    match axios_post_deduct latency
            (Inventory.mkDeductRequest (Some productId) (Some quantity)
               (Some newId) gremlin) (order_create o s) with
    | (inr inventoryResponse, s2) =>
        if statusCode inventoryResponse =? 200 then
          match order_update newId CONFIRMED s2 with
          | (Returned updatedOrder, s3) =>
              (Some (mkResponse 201 (order_json updatedOrder)), s3)
          | (Threw msg, s3) =>
              on_inventory_error (mkError (Some "P2025") msg) o s3
          end
        else on_inventory_error (mkError None "Inventory deduction failed") o s2
    | (inl error, s2) => on_inventory_error error o s2
    end.
Proof.
  intros Hp Hq. unfold post_orders.
  now rewrite missing_fields_false by assumption.
Qed.

(** Every [201] the handler sends carries the status [CONFIRMED]. *)
Lemma created_response_is_confirmed newId latency body s resp s' :
  post_orders newId latency body s = (Some resp, s') ->
  statusCode resp = 201 ->
  field "status" (json resp) = JStr "CONFIRMED".
Proof.
  unfold post_orders, on_inventory_error, general_failure.
  intros H Hc.
  repeat match type of H with
         | (if ?c then _ else _) = _ => destruct c
         | match ?x with _ => _ end = _ => destruct x eqn:?
         | (_, _) = (_, _) => inversion H; subst; clear H
         end; cbn in Hc; try discriminate.
  unfold order_update in *.
  match goal with
  | E : match ?x with _ => _ end = _ |- _ => destruct x; inversion E; subst
  end.
  reflexivity.
Qed.

(** ** Deadline exceeded, enqueue succeeds (C4) *)

(** C4. A placement request with a well-formed body, whose call to the
    inventory service takes longer than the 2-second deadline while the
    channel to the work queue is open, creates the order PENDING and moves
    it to QUEUED, puts one work item for it on [inventory_queue], and
    answers 202 with the order id and the status "QUEUED"; that response
    differs, in code and in status, from every synchronous-success
    response (201, status "CONFIRMED"). *)
Theorem timeout_with_queue_is_queued newId latency productId quantity gremlin s :
  productId <> "" ->
  quantity <> 0 ->
  TIMEOUT_MS < response_time latency gremlin ->
  channel s = Broker.ChannelOpen ->
  exists resp s',
    post_orders newId latency
      (mkOrderRequest (Some productId) (Some quantity) gremlin) s
    = (Some resp, s')
    /\ order s' !! newId = Some (mkOrder newId productId quantity QUEUED)
    /\ statusWrites s' = statusWrites s ++ [(newId, PENDING); (newId, QUEUED)]
    /\ Broker.inventory_queue (queues s')
       = Broker.inventory_queue (queues s)
         ++ [Broker.mkWorkItem productId quantity newId]
    /\ statusCode resp = 202
    /\ field "id" (json resp) = JStr newId
    /\ field "status" (json resp) = JStr "QUEUED"
    /\ (forall newId0 latency0 body0 s0 resp0 s0',
          post_orders newId0 latency0 body0 s0 = (Some resp0, s0') ->
          statusCode resp0 = 201 ->
          field "status" (json resp0) = JStr "CONFIRMED" /\ resp0 <> resp).
Proof.
  intros Hp Hq Hlate Hch.
  rewrite post_orders_valid by assumption. cbv zeta.
  rewrite axios_post_deduct_late by exact Hlate.
  unfold on_inventory_error. rewrite timeout_error_is_timeout.
  sys_cbn. rewrite Hch.
  erewrite order_update_found by (sys_cbn; apply lookup_insert_eq).
  do 2 eexists. split; [reflexivity|].
  sys_cbn. repeat split.
  - apply lookup_insert_eq.
  - now rewrite <- app_assoc.
  - eapply created_response_is_confirmed; eassumption.
  - intros ->. cbn in *. discriminate.
Qed.

Lemma timeout_with_queue_is_queued_witness :
  exists resp s',
    post_orders "o1" 50 (mkOrderRequest (Some "p1") (Some 1) (JBool true))
      (mkSystem ∅ [] Broker.ChannelOpen (Broker.mkQueues [] [])
                Scenario.seeded [])
    = (Some resp, s')
    /\ order s' !! "o1" = Some (mkOrder "o1" "p1" 1 QUEUED)
    /\ statusCode resp = 202
    /\ field "status" (json resp) = JStr "QUEUED".
Proof.
  destruct (timeout_with_queue_is_queued "o1" 50 "p1" 1 (JBool true)
              (mkSystem ∅ [] Broker.ChannelOpen (Broker.mkQueues [] [])
                        Scenario.seeded []))
    as (resp & s' & H & Ho & _ & _ & Hc & _ & Hs & _).
  - vm_compute. discriminate.
  - lia.
  - vm_compute. reflexivity.
  - reflexivity.
  - exists resp, s'. repeat split; assumption.
Defined.

(** ** Deadline exceeded, work queue unavailable (C5) *)

(** C5 (amended). A placement request with a well-formed body, whose call
    to the inventory service takes longer than the 2-second deadline while
    the work queue is unavailable (no channel, or a channel on which the
    enqueue throws), ends with the order FAILED and nothing enqueued, and
    is answered with the handler's general 503 failure response
    [{error: "Order failed due to inventory issue", orderId, status:
    "FAILED"}]. The order is not lost: its row is kept with status FAILED
    and the response carries its id. *)
Theorem timeout_without_queue_fails newId latency productId quantity gremlin s :
  productId <> "" ->
  quantity <> 0 ->
  TIMEOUT_MS < response_time latency gremlin ->
  channel s <> Broker.ChannelOpen ->
  exists s',
    post_orders newId latency
      (mkOrderRequest (Some productId) (Some quantity) gremlin) s
    = (Some (mkResponse 503 [("error", JStr "Order failed due to inventory issue");
                             ("orderId", JStr newId);
                             ("status", JStr "FAILED")]),
       s')
    /\ order s' !! newId = Some (mkOrder newId productId quantity FAILED)
    /\ statusWrites s' = statusWrites s ++ [(newId, PENDING); (newId, FAILED)]
    /\ queues s' = queues s
    /\ inventory s' = inventory s.
Proof.
  intros Hp Hq Hlate Hch.
  rewrite post_orders_valid by assumption. cbv zeta.
  rewrite axios_post_deduct_late by exact Hlate.
  unfold on_inventory_error. rewrite timeout_error_is_timeout.
  sys_cbn.
  assert (Hfail :
    forall s1 : System,
      s1 = mkSystem
             (<[newId := mkOrder newId productId quantity PENDING]> (order s))
             (statusWrites s ++ [(newId, PENDING)]) (channel s) (queues s)
             (inventory s)
             (inflight s ++
                [Inventory.mkDeductRequest (Some productId) (Some quantity)
                   (Some newId) gremlin]) ->
      exists s',
        general_failure newId s1
        = (Some (mkResponse 503 [("error", JStr "Order failed due to inventory issue");
                                 ("orderId", JStr newId);
                                 ("status", JStr "FAILED")]), s')
        /\ order s' !! newId = Some (mkOrder newId productId quantity FAILED)
        /\ statusWrites s' = statusWrites s ++ [(newId, PENDING); (newId, FAILED)]
        /\ queues s' = queues s
        /\ inventory s' = inventory s).
  { intros s1 ->.
    erewrite general_failure_found by (sys_cbn; apply lookup_insert_eq).
    eexists. split; [reflexivity|]. sys_cbn. repeat split.
    - apply lookup_insert_eq.
    - now rewrite <- app_assoc. }
  destruct (channel s) eqn:E; [| congruence |]; now apply Hfail.
Qed.

Lemma timeout_without_queue_fails_witness :
  exists s',
    post_orders "o1" 50 (mkOrderRequest (Some "p1") (Some 1) (JBool true))
      (mkSystem ∅ [] Broker.NoChannel (Broker.mkQueues [] [])
                Scenario.seeded [])
    = (Some (mkResponse 503 [("error", JStr "Order failed due to inventory issue");
                             ("orderId", JStr "o1");
                             ("status", JStr "FAILED")]),
       s')
    /\ order s' !! "o1" = Some (mkOrder "o1" "p1" 1 FAILED).
Proof.
  destruct (timeout_without_queue_fails "o1" 50 "p1" 1 (JBool true)
              (mkSystem ∅ [] Broker.NoChannel (Broker.mkQueues [] [])
                        Scenario.seeded []))
    as (s' & H & Ho & _).
  - vm_compute. discriminate.
  - lia.
  - vm_compute. reflexivity.
  - simpl. discriminate.
  - exists s'. split; assumption.
Defined.

(** C5 (as stated, refuted). With no channel, a request that runs into the
    deadline is answered with exactly the response that a request failing
    for lack of stock gets while the queue is available; the body names
    neither the queue nor its unavailability. *)
Lemma queue_unavailable_not_identified :
  exists resp,
    fst (post_orders "o1" 50 (Scenario.gremlin 1)
           (Scenario.deployment Broker.NoChannel)) = Some resp
    /\ fst (post_orders "o1" 50 (Scenario.plain 21)
              (Scenario.deployment Broker.ChannelOpen)) = Some resp
    /\ field "error" (json resp) = JStr "Order failed due to inventory issue"
    /\ mentions "ueue" resp = false
    /\ mentions "navailable" resp = false.
Proof.
  eexists. split; [vm_compute; reflexivity|].
  repeat split; vm_compute; reflexivity.
Qed.

(** ** Quantity above the stock (C7) *)

(** The inventory endpoint on a request it cannot serve from stock. *)
Lemma post_inventory_deduct_insufficient productId quantity orderId gremlin db p :
  productId <> "" ->
  quantity <> 0 ->
  orderId ∉ Inventory.idempotencyLog db ->
  Inventory.product db !! productId = Some p ->
  Inventory.stock p < quantity ->
  exists body ops,
    Inventory.post_inventory_deduct
      (Inventory.mkDeductRequest (Some productId) (Some quantity)
         (Some orderId) gremlin) db
    = (mkResponse 400 body, db, ops).
Proof.
  intros Hp Hq Hnin Hprod Hlt. unfold Inventory.post_inventory_deduct.
  cbn [Inventory.req_productId Inventory.req_quantity Inventory.req_orderId].
  rewrite truthy_str, truthy_num by assumption.
  destruct (truthy (JStr orderId)); cbn [negb orb].
  - rewrite (InventoryFacts.deductInventory_insufficient _ _ _ _ p)
      by assumption.
    eauto.
  - eauto.
Qed.

(** C7 (amended). A placement request with a well-formed body and no fault
    flag, answered by the inventory service within the deadline, for a
    quantity above the product's stock, ends with the order FAILED and the
    inventory database (stock and idempotency log) and the queues
    unchanged; the response is the handler's general 503 failure
    [{error: "Order failed due to inventory issue", orderId, status:
    "FAILED"}]. *)
Theorem excess_quantity_fails newId latency productId quantity gremlin s p :
  productId <> "" ->
  quantity <> 0 ->
  strict_eq_true gremlin = false ->
  latency <= TIMEOUT_MS ->
  newId ∉ Inventory.idempotencyLog (inventory s) ->
  Inventory.product (inventory s) !! productId = Some p ->
  Inventory.stock p < quantity ->
  exists s',
    post_orders newId latency
      (mkOrderRequest (Some productId) (Some quantity) gremlin) s
    = (Some (mkResponse 503 [("error", JStr "Order failed due to inventory issue");
                             ("orderId", JStr newId);
                             ("status", JStr "FAILED")]),
       s')
    /\ order s' !! newId = Some (mkOrder newId productId quantity FAILED)
    /\ statusWrites s' = statusWrites s ++ [(newId, PENDING); (newId, FAILED)]
    /\ inventory s' = inventory s
    /\ Inventory.product (inventory s') !! productId = Some p
    /\ queues s' = queues s.
Proof.
  intros Hp Hq Hg Hlat Hnin Hprod Hlt.
  rewrite post_orders_valid by assumption. cbv zeta.
  unfold axios_post_deduct, response_time.
  cbn [Inventory.req_gremlin]. rewrite Hg.
  apply Z.ltb_ge in Hlat. rewrite Hlat. sys_cbn.
  destruct (post_inventory_deduct_insufficient productId quantity newId gremlin
              (inventory s) p) as (body & ops & ->); try assumption.
  cbn [statusCode Z.leb Z.ltb Z.compare Pos.compare Pos.compare_cont andb].
  unfold on_inventory_error. rewrite bad_request_is_not_timeout.
  erewrite general_failure_found by (sys_cbn; apply lookup_insert_eq).
  eexists. split; [reflexivity|]. sys_cbn. repeat split.
  - apply lookup_insert_eq.
  - now rewrite <- app_assoc.
  - assumption.
Qed.

Lemma excess_quantity_fails_witness :
  exists s',
    post_orders "o1" 50 (Scenario.plain 21)
      (Scenario.deployment Broker.ChannelOpen)
    = (Some (mkResponse 503 [("error", JStr "Order failed due to inventory issue");
                             ("orderId", JStr "o1");
                             ("status", JStr "FAILED")]),
       s')
    /\ order s' !! "o1" = Some (mkOrder "o1" "p1" 21 FAILED)
    /\ inventory s' = Scenario.seeded.
Proof.
  destruct (excess_quantity_fails "o1" 50 "p1" 21 (JBool false)
              (Scenario.deployment Broker.ChannelOpen)
              (Inventory.mkProduct "Flux Capacitor" 20))
    as (s' & H & Ho & _ & Hi & _).
  - vm_compute. discriminate.
  - lia.
  - reflexivity.
  - vm_compute. discriminate.
  - vm_compute. discriminate.
  - vm_compute. reflexivity.
  - simpl. lia.
  - exists s'. repeat split; assumption.
Defined.

(** C7 (as stated, refuted). Ordering 21 units of a product with 20 in
    stock: the inventory endpoint answers with the insufficient-stock
    reason, but the response of the order service mentions neither the
    stock nor that reason, and is the response a deadline failure with no
    channel gets. *)
Lemma insufficient_stock_reason_not_surfaced :
  exists resp,
    fst (post_orders "o1" 50 (Scenario.plain 21)
           (Scenario.deployment Broker.ChannelOpen)) = Some resp
    /\ fst (fst (Inventory.post_inventory_deduct
                   (Inventory.mkDeductRequest (Some "p1") (Some 21) (Some "o1")
                      (JBool false)) Scenario.seeded))
       = mkResponse 400 [("error", JStr "Insufficient stock or product not found")]
    /\ mentions "Insufficient stock"
         (mkResponse 400 [("error", JStr "Insufficient stock or product not found")])
       = true
    /\ mentions "Insufficient stock" resp = false
    /\ mentions "nsufficient" resp = false
    /\ mentions "tock" resp = false
    /\ fst (post_orders "o1" 50 (Scenario.gremlin 1)
              (Scenario.deployment Broker.NoChannel)) = Some resp.
Proof.
  eexists. split; [vm_compute; reflexivity|].
  repeat split; vm_compute; reflexivity.
Qed.

(** ** The three end-to-end scenarios, run on the sample deployment *)

(** Scenario A: quantity within stock, no fault flag: 201, the order is
    CONFIRMED and the stock is down by the quantity. *)
Example scenario_A :
  let '(resp, s) := post_orders "o1" 50 (Scenario.plain 3)
                      (Scenario.deployment Broker.ChannelOpen) in
  resp = Some (mkResponse 201 (order_json (mkOrder "o1" "p1" 3 CONFIRMED)))
  /\ order s !! "o1" = Some (mkOrder "o1" "p1" 3 CONFIRMED)
  /\ Inventory.product (inventory s) !! "p1"
     = Some (Inventory.mkProduct "Flux Capacitor" 17).
Proof. vm_compute. repeat split; reflexivity. Qed.

(** Scenario B: the fault flag is set. The order is QUEUED; the stalled
    request and the work item are then both served by the inventory
    service, in either order, and the completion event is delivered: the
    order is COMPLETED and the stock is down by the quantity, once. *)
Example scenario_B :
  let '(resp, s) := post_orders "o1" 50 (Scenario.gremlin 3)
                      (Scenario.deployment Broker.ChannelOpen) in
  let s1 := deliver_completion (deliver_inventory (finish_inflight s)) in
  let s2 := deliver_completion (finish_inflight (deliver_inventory s)) in
  (statusCode <$> resp) = Some 202
  /\ order s !! "o1" = Some (mkOrder "o1" "p1" 3 QUEUED)
  /\ order s1 !! "o1" = Some (mkOrder "o1" "p1" 3 COMPLETED)
  /\ Inventory.product (inventory s1) !! "p1"
     = Some (Inventory.mkProduct "Flux Capacitor" 17)
  /\ s2 = s1.
Proof. vm_compute. repeat split; reflexivity. Qed.

(** ** Completion events (C2, C9) *)

Lemma completion_status_terminal v :
  completion_status v = COMPLETED \/ completion_status v = FAILED.
Proof.
  unfold completion_status.
  destruct (strict_eq_str v "COMPLETED"), (strict_eq_str v "FAILED"); auto.
Qed.

Lemma strict_eq_str_false v lit : v <> JStr lit -> strict_eq_str v lit = false.
Proof.
  intros H. destruct v; try reflexivity. cbn.
  apply String.eqb_neq. congruence.
Qed.

Lemma strict_eq_str_true v lit : strict_eq_str v lit = true -> v = JStr lit.
Proof.
  destruct v; cbn; try discriminate. intros H.
  apply String.eqb_eq in H. now subst.
Qed.

Lemma applyCompletion_found event s o :
  order s !! Broker.ev_orderId event = Some o ->
  on_completion_message (Some event) s
  = (true,
     with_order
       (insert (Broker.ev_orderId event)
          (mkOrder (id o) (productId o) (quantity o)
             (completion_status (Broker.ev_status event))))
       (Broker.ev_orderId event, completion_status (Broker.ev_status event))
       s).
Proof.
  intros H. unfold on_completion_message.
  now rewrite (order_update_found _ _ _ _ H).
Qed.

(** An event for an order that does not exist is acknowledged and
    dropped. *)
Lemma applyCompletion_missing event s :
  order s !! Broker.ev_orderId event = None ->
  on_completion_message (Some event) s = (true, s).
Proof.
  intros H. unfold on_completion_message.
  now rewrite (order_update_missing _ _ _ H).
Qed.

(** C2 (as stated, refuted). A completion event with outcome FAILED,
    applied to an order that is CONFIRMED, makes it FAILED; one with outcome
    COMPLETED, applied to an order that is FAILED, makes it COMPLETED. *)
Lemma terminal_order_overwritten :
  terminal CONFIRMED = true
  /\ order (applyCompletion
              (Broker.mkCompletionEvent "o1" (JStr "FAILED") JUndefined)
              (Scenario.placed CONFIRMED)) !! "o1"
     = Some (mkOrder "o1" "p1" 1 FAILED)
  /\ terminal FAILED = true
  /\ order (applyCompletion
              (Broker.mkCompletionEvent "o1" (JStr "COMPLETED") JUndefined)
              (Scenario.placed FAILED)) !! "o1"
     = Some (mkOrder "o1" "p1" 1 COMPLETED).
Proof. repeat split; vm_compute; reflexivity. Qed.

(** C2 (amended). Applying a completion event to an existing order sets
    the order's status to the outcome of the event (FAILED for the status
    'FAILED', COMPLETED otherwise), whatever status the order has, and
    changes nothing else in the order table; the outcome is a terminal
    state, and the event leaves the table unchanged exactly when the order
    already has that status. *)
Theorem completion_overwrites_status event s o :
  order s !! Broker.ev_orderId event = Some o ->
  let st := completion_status (Broker.ev_status event) in
  order (applyCompletion event s)
  = <[Broker.ev_orderId event := mkOrder (id o) (productId o) (quantity o) st]>
      (order s)
  /\ terminal st = true
  /\ (order (applyCompletion event s) = order s <-> status o = st).
Proof.
  intros Ho st. unfold applyCompletion.
  rewrite (applyCompletion_found _ _ _ Ho). sys_cbn. fold st.
  split; [reflexivity|]. split.
  - destruct (completion_status_terminal (Broker.ev_status event)) as [E|E];
      subst st; now rewrite E.
  - split.
    + intros E.
      assert (L : <[Broker.ev_orderId event :=
                     mkOrder (id o) (productId o) (quantity o) st]> (order s)
                  !! Broker.ev_orderId event = Some o) by now rewrite E.
      rewrite lookup_insert_eq in L. injection L as L.
      rewrite <- L. reflexivity.
    + intros E. apply insert_id. rewrite Ho, <- E. now destruct o.
Qed.

Lemma completion_overwrites_status_witness :
  order (applyCompletion
           (Broker.mkCompletionEvent "o1" (JStr "FAILED") JUndefined)
           (Scenario.placed QUEUED))
  = {["o1" := mkOrder "o1" "p1" 1 FAILED]}.
Proof.
  destruct (completion_overwrites_status
              (Broker.mkCompletionEvent "o1" (JStr "FAILED") JUndefined)
              (Scenario.placed QUEUED) (mkOrder "o1" "p1" 1 QUEUED))
    as (H & _).
  - vm_compute. reflexivity.
  - rewrite H. vm_compute. reflexivity.
Defined.

(** C9. A completion event whose status is neither 'COMPLETED' nor
    'FAILED' (any other value, or none) makes the consumer set the status
    of the order it refers to to COMPLETED, and acknowledge the message. *)
Theorem unknown_completion_status_completes event s o :
  Broker.ev_status event <> JStr "COMPLETED" ->
  Broker.ev_status event <> JStr "FAILED" ->
  order s !! Broker.ev_orderId event = Some o ->
  exists s',
    on_completion_message (Some event) s = (true, s')
    /\ order s' !! Broker.ev_orderId event
       = Some (mkOrder (id o) (productId o) (quantity o) COMPLETED)
    /\ statusWrites s' = statusWrites s ++ [(Broker.ev_orderId event, COMPLETED)].
Proof.
  intros Hc Hf Ho. rewrite (applyCompletion_found _ _ _ Ho).
  unfold completion_status.
  rewrite (strict_eq_str_false _ _ Hc), (strict_eq_str_false _ _ Hf).
  cbn [orb]. eexists. split; [reflexivity|]. sys_cbn.
  split; [apply lookup_insert_eq | reflexivity].
Qed.

Lemma unknown_completion_status_completes_witness :
  exists s',
    on_completion_message
      (Some (Broker.mkCompletionEvent "o1" (JStr "DONE") JUndefined))
      (Scenario.placed QUEUED) = (true, s')
    /\ order s' !! "o1" = Some (mkOrder "o1" "p1" 1 COMPLETED).
Proof.
  destruct (unknown_completion_status_completes
              (Broker.mkCompletionEvent "o1" (JStr "DONE") JUndefined)
              (Scenario.placed QUEUED) (mkOrder "o1" "p1" 1 QUEUED))
    as (s' & H & Ho & _).
  - simpl. discriminate.
  - simpl. discriminate.
  - vm_compute. reflexivity.
  - exists s'. split; assumption.
Defined.

End OrderFacts.

(* ===================================================================== *)
(** * Properties of the background consumer of the inventory service *)
(* ===================================================================== *)

Module ConsumerFacts.
Import Inventory.

(** Every event the consumer publishes reports COMPLETED. *)
Lemma published_events_are_completed msg db ev :
  In ev (published (fst (on_inventory_message msg db))) ->
  Broker.ev_status ev = JStr "COMPLETED".
Proof.
  unfold on_inventory_message. destruct msg as [data|]; [|intros []].
  destruct (deductInventory _ _ _ db) as [[[r|m] db'] ops]; cbn.
  - intros [<-|[]]. reflexivity.
  - intros [].
Qed.

(** A work item whose fulfilment throws is acknowledged, and nothing is
    published for it. *)
Lemma failed_work_item_handling data db msg db' ops :
  deductInventory (Broker.productId data) (Broker.quantity data)
                  (Broker.orderId data) db = (Threw msg, db', ops) ->
  on_inventory_message (Some data) db = (mkHandled [] true, db).
Proof.
  intros H. unfold on_inventory_message. rewrite H.
  now destruct (InventoryFacts.deductInventory_threw_unchanged _ _ _ _ _ _ _ H)
    as (-> & _).
Qed.

(** C6 (what the code does). A work item for 21 units of a product with 20
    in stock fails in the consumer: the message is acknowledged and leaves
    [inventory_queue], and no completion event, FAILED or otherwise, is put
    on [order_completion_queue]. *)
Lemma failed_work_item_publishes_nothing :
  on_inventory_message (Some (Broker.mkWorkItem "p1" 21 "o1")) Scenario.seeded
  = (mkHandled [] true, Scenario.seeded)
  /\ deliver_inventory_queue
       (Broker.mkQueues [Broker.mkWorkItem "p1" 21 "o1"] []) Scenario.seeded
     = (Broker.mkQueues [] [], Scenario.seeded).
Proof. split; vm_compute; reflexivity. Qed.

(** The consequence for the order: placed with the fault flag for more
    than the stock holds, it is QUEUED, its work item fails in the consumer,
    and with both queues and the stalled request drained it is still
    QUEUED. *)
Example queued_order_left_queued :
  let '(_, s) := Orders.post_orders "o1" 50 (Scenario.gremlin 21)
                   (Scenario.deployment Broker.ChannelOpen) in
  let s' := Orders.deliver_completion
              (Orders.deliver_inventory (Orders.finish_inflight s)) in
  Orders.order s' !! "o1" = Some (Orders.mkOrder "o1" "p1" 21 Orders.QUEUED)
  /\ Orders.queues s' = Broker.mkQueues [] []
  /\ Orders.inflight s' = [].
Proof. vm_compute. repeat split; reflexivity. Qed.

End ConsumerFacts.

(* ===================================================================== *)
(** * Negative quantities *)
(* ===================================================================== *)

Module PlacementFacts.
Import Inventory.

(** C10 (as stated, refuted). With stock 1 and quantity -2^53 the check
    [stock < quantity] is false and the update is made, but the difference
    [stock - quantity] is formed in binary64: it is 2^53, not 2^53 + 1, so
    the stock goes up by 2^53 - 1 and not by the absolute value of the
    quantity. *)
Lemma negative_quantity_beyond_safe_range :
  Binary64.below (Binary64.number_of_Z 1)
                 (Binary64.number_of_Z (-9007199254740992)) = false
  /\ Binary64.difference (Binary64.number_of_Z 1)
                         (Binary64.number_of_Z (-9007199254740992))
     = Binary64.number_of_Z 9007199254740992
  /\ PrimFloat.sub
       (Binary64.difference (Binary64.number_of_Z 1)
                            (Binary64.number_of_Z (-9007199254740992)))
       (Binary64.number_of_Z 1)
     = Binary64.number_of_Z 9007199254740991
  /\ PrimFloat.eqb (Binary64.number_of_Z 9007199254740991)
                   (PrimFloat.abs (Binary64.number_of_Z (-9007199254740992)))
     = false.
Proof. repeat split; vm_compute; reflexivity. Qed.

(** C10 (amended). For a negative integer quantity, a product with
    non-negative stock such that the stock plus the absolute value of the
    quantity does not exceed [Number.MAX_SAFE_INTEGER], and an order id
    with no idempotency record, the validation of the placement request
    lets the request through (a negative number is truthy), the stock
    check of [deductInventory] passes, and the call commits a stock update
    that raises the stock by the absolute value of the quantity, together
    with the idempotency record. *)
Theorem negative_quantity_restocks productId quantity orderId gremlin db p :
  quantity < 0 ->
  0 <= stock p ->
  stock p + Z.abs quantity <= Binary64.MAX_SAFE_INTEGER ->
  productId <> "" ->
  product db !! productId = Some p ->
  orderId ∉ idempotencyLog db ->
  Orders.missing_fields
    (Orders.mkOrderRequest (Some productId) (Some quantity) gremlin) = false
  /\ (stock p <? quantity) = false
  /\ exists ops,
      deductInventory productId quantity orderId db
      = (Returned Applied,
         mkDb (<[productId := mkProduct (name p) (stock p + Z.abs quantity)]>
                 (product db))
              ({[orderId]} ∪ idempotencyLog db),
         ops)
      /\ stock_writes ops = [ProductUpdate productId (stock p + Z.abs quantity)].
Proof.
  intros Hq Hs _ Hp Hprod Hnin.
  split; [apply OrderFacts.missing_fields_false; [assumption | lia]|].
  split; [apply Z.ltb_ge; lia|].
  rewrite (InventoryFacts.deductInventory_fresh _ _ _ _ p) by (assumption || lia).
  replace (stock p - quantity) with (stock p + Z.abs quantity) by lia.
  eexists. split; reflexivity.
Qed.

Lemma negative_quantity_restocks_witness :
  exists ops,
    deductInventory "p1" (-5) "o1" Scenario.seeded
    = (Returned Applied,
       mkDb ({["p1" := mkProduct "Flux Capacitor" 25]}) {["o1"]},
       ops).
Proof.
  destruct (negative_quantity_restocks "p1" (-5) "o1" JUndefined Scenario.seeded
              (mkProduct "Flux Capacitor" 20))
    as (_ & _ & ops & H & _).
  - lia.
  - simpl. lia.
  - vm_compute. discriminate.
  - vm_compute. discriminate.
  - vm_compute. reflexivity.
  - vm_compute. discriminate.
  - exists ops. rewrite H. vm_compute. reflexivity.
Defined.

(** Within the safe range the integers agree with the numbers: the check
    and the difference of the witness, on binary64. *)
Example safe_range_agrees :
  Binary64.below (Binary64.number_of_Z 20) (Binary64.number_of_Z (-5)) = false
  /\ Binary64.difference (Binary64.number_of_Z 20) (Binary64.number_of_Z (-5))
     = Binary64.number_of_Z 25.
Proof. split; vm_compute; reflexivity. Qed.

(** End to end: an order for -5 units is CONFIRMED and the stock goes from
    20 to 25. *)
Example negative_order_is_confirmed :
  let '(resp, s) := Orders.post_orders "o1" 50 (Scenario.plain (-5))
                      (Scenario.deployment Broker.ChannelOpen) in
  (statusCode <$> resp) = Some 201
  /\ Orders.order s !! "o1"
     = Some (Orders.mkOrder "o1" "p1" (-5) Orders.CONFIRMED)
  /\ product (Orders.inventory s) !! "p1" = Some (mkProduct "Flux Capacitor" 25).
Proof. vm_compute. repeat split; reflexivity. Qed.

End PlacementFacts.

(* ===================================================================== *)
(** * Properties of the rolling-window statistics *)
(* ===================================================================== *)

Module StatsFacts.
Import Stats.

(** The samples the endpoint keeps are those of the 30-second window. *)
Lemma valid_durations_window now samples :
  List.map duration (List.filter (fresh now) samples) = window now samples.
Proof.
  induction samples as [|r rest IH]; [reflexivity|].
  cbn [List.filter window]. unfold fresh at 1, age, WINDOW_SIZE_MS.
  destruct (Z_le_dec (now - time r) (30 * 1000)) as [Hle|Hgt].
  - replace (now - time r <=? 30000) with true
      by (symmetry; apply Z.leb_le; lia).
    cbn [List.map]. now rewrite IH.
  - replace (now - time r <=? 30000) with false
      by (symmetry; apply Z.leb_gt; lia).
    exact IH.
Qed.

(** The [reduce] of the endpoint adds up the durations from the left. *)
Lemma reduce_sum (l : list Sample) (acc : float) :
  fold_left (fun sum r => PrimFloat.add sum (duration r)) l acc
  = fold_left PrimFloat.add (List.map duration l) acc.
Proof.
  revert acc. induction l as [|r l IH]; intros acc; [reflexivity|].
  cbn [fold_left List.map]. apply IH.
Qed.

Lemma count_window now samples :
  requestCount (stats now samples) = length (window now samples).
Proof.
  rewrite <- valid_durations_window. cbn. now rewrite length_map.
Qed.

(** C8 (as stated, refuted). Three samples of 0.1 s, all in the window:
    their arithmetic mean is 0.1, a binary64 number, but [average] returns
    the number just above it, 0.10000000000000002. Likewise two samples of
    0.1 s and 0.2 s give 0.15000000000000002 and not 0.15. *)
Lemma average_is_not_the_exact_mean :
  window 36000 [mkSample 35000 tenth; mkSample 35000 tenth; mkSample 35000 tenth]
  = [tenth; tenth; tenth]
  /\ average 36000 [mkSample 35000 tenth; mkSample 35000 tenth;
                    mkSample 35000 tenth] = above_tenth
  /\ PrimFloat.eqb above_tenth tenth = false
  /\ PrimFloat.ltb tenth above_tenth = true
  /\ average 36000 [mkSample 35000 tenth; mkSample 35000 fifth]
     = above_three_twentieths
  /\ PrimFloat.eqb above_three_twentieths three_twentieths = false.
Proof. repeat split; vm_compute; reflexivity. Qed.

(** C8 (amended). For every list of samples and every read time,
    [average] depends on exactly those samples whose age at read time is
    at most 30 seconds: it is 0 when there is none, and otherwise the sum
    of their durations, formed from 0 in list order with each addition
    rounded to binary64, divided in binary64 by their number, which is the
    arithmetic mean up to rounding; [requestCount] is their number. For
    samples taken at 0 s (1.0 s), 10 s (2.0 s) and 35 s (3.0 s) and read
    at 36 s, the average is exactly 2.5. *)
Theorem average_is_rounded_window_mean now samples :
  average now samples
  = match window now samples with
    | [] => 0%float
    | _ :: _ => rounded_mean (window now samples)
    end
  /\ requestCount (stats now samples) = length (window now samples)
  /\ average 36000 [mkSample 0 1%float; mkSample 10000 2%float;
                    mkSample 35000 3%float]
     = 2.5%float.
Proof.
  split; [| split; [apply count_window | vm_compute; reflexivity]].
  rewrite <- valid_durations_window.
  unfold average, stats. cbn [averageLatency].
  destruct (List.filter (fresh now) samples) as [|r l] eqn:E;
    [reflexivity|].
  set (valid := r :: l).
  replace (0 <? length valid)%nat with true by reflexivity.
  change (List.map duration valid) with (duration r :: List.map duration l).
  cbv iota.
  change (duration r :: List.map duration l) with (List.map duration valid).
  unfold rounded_mean, rounded_sum. now rewrite length_map, reduce_sum.
Qed.

End StatsFacts.

(* ===================================================================== *)
(** * Further properties of the inventory service *)
(* ===================================================================== *)

Module LedgerFacts.
Import Inventory.

(** X1. [deductInventory] keeps every stock non-negative: if no product
    has a negative stock before the call, none has after it, whatever the
    product, the quantity (negative ones included) and the order id. *)
Theorem stock_stays_non_negative productId quantity orderId db r db1 ops :
  (forall k p, product db !! k = Some p -> 0 <= stock p) ->
  deductInventory productId quantity orderId db = (r, db1, ops) ->
  forall k p, product db1 !! k = Some p -> 0 <= stock p.
Proof.
  intros Hinv H k p Hk.
  pose proof (InventoryFacts.deductInventory_cases productId quantity orderId db) as C.
  rewrite H in C. inversion C; subst; eauto.
  cbn in Hk. destruct (decide (productId = k)) as [->|Hne].
  - rewrite lookup_insert_eq in Hk. injection Hk as <-. cbn. lia.
  - rewrite lookup_insert_ne in Hk by assumption. eauto.
Qed.

Lemma stock_stays_non_negative_witness :
  0 <= stock (mkProduct "Flux Capacitor" 0).
Proof.
  refine (stock_stays_non_negative "p1" 20 "o1" Scenario.seeded (Returned Applied)
            (mkDb ({["p1" := mkProduct "Flux Capacitor" 0]}) {["o1"]})
            [IdempotencyFindUnique "o1"; ProductFindUnique "p1";
             ProductUpdate "p1" 0; IdempotencyCreate "o1"]
            _ _ "p1" _ _).
  - intros k p. unfold Scenario.seeded. cbn [product].
    intros [_ <-]%lookup_singleton_Some. simpl. lia.
  - vm_compute. reflexivity.
  - vm_compute. reflexivity.
Defined.

(** X2. A call touches no product but the one it names, creates and
    deletes no product row, keeps the product's name, and never removes an
    idempotency record: the log afterwards holds the old records and at
    most the record of this order in addition. *)
Theorem deduct_touches_one_product productId quantity orderId db r db1 ops :
  deductInventory productId quantity orderId db = (r, db1, ops) ->
  (forall k, k <> productId -> product db1 !! k = product db !! k)
  /\ (forall p, product db !! productId = Some p ->
                exists p', product db1 !! productId = Some p' /\ name p' = name p)
  /\ (product db !! productId = None -> product db1 !! productId = None)
  /\ idempotencyLog db ⊆ idempotencyLog db1
  /\ idempotencyLog db1 ⊆ {[orderId]} ∪ idempotencyLog db.
Proof.
  intros H.
  pose proof (InventoryFacts.deductInventory_cases productId quantity orderId db) as C.
  rewrite H in C. inversion C; subst;
    try (repeat split; eauto; set_solver).
  cbn [product idempotencyLog]. repeat split.
  - intros k Hk. now rewrite lookup_insert_ne by congruence.
  - intros p' Hp'. rewrite lookup_insert_eq. eexists. split; [reflexivity|].
    cbn. congruence.
  - congruence.
  - set_solver.
  - set_solver.
Qed.

Lemma deduct_touches_one_product_witness :
  product (mkDb ({["p1" := mkProduct "Flux Capacitor" 17]}) {["o1"]}) !! "p2"
  = product Scenario.seeded !! "p2".
Proof.
  apply (deduct_touches_one_product "p1" 3 "o1" Scenario.seeded (Returned Applied)
           (mkDb ({["p1" := mkProduct "Flux Capacitor" 17]}) {["o1"]})
           [IdempotencyFindUnique "o1"; ProductFindUnique "p1";
            ProductUpdate "p1" 17; IdempotencyCreate "o1"]).
  - vm_compute. reflexivity.
  - vm_compute. discriminate.
Defined.

(** X3. After a call, the idempotency log holds a record for the order
    exactly when the call returned: a call that throws leaves no record,
    a call that returns always leaves one. *)
Theorem record_exactly_when_returned productId quantity orderId db r db1 ops :
  deductInventory productId quantity orderId db = (r, db1, ops) ->
  (orderId ∈ idempotencyLog db1 <-> exists result, r = Returned result).
Proof.
  intros H.
  pose proof (InventoryFacts.deductInventory_cases productId quantity orderId db) as C.
  rewrite H in C. inversion C; subst; cbn [idempotencyLog].
  - split; eauto.
  - split; [contradiction | intros [? ?]; discriminate].
  - split; [contradiction | intros [? ?]; discriminate].
  - split; [eauto | intros _; apply elem_of_union_l; now apply elem_of_singleton].
Qed.

Lemma record_exactly_when_returned_witness :
  "o1" ∈ idempotencyLog Scenario.seeded
  <-> exists result : DeductResult, Threw InsufficientStock = Returned result.
Proof.
  apply (record_exactly_when_returned "p1" 21 "o1" Scenario.seeded
           (Threw InsufficientStock) Scenario.seeded
           [IdempotencyFindUnique "o1"; ProductFindUnique "p1"]).
  vm_compute. reflexivity.
Defined.

End LedgerFacts.

(* ===================================================================== *)
(** * Properties of the deduct endpoint *)
(* ===================================================================== *)

Module EndpointFacts.
Import Inventory Serving.

(** A body with a falsy field is turned away before the database is
    reached. *)
Lemma deduct_request_rejected body db :
  truthy (js_str (req_productId body)) = false
  \/ truthy (js_num (req_quantity body)) = false
  \/ truthy (js_str (req_orderId body)) = false ->
  post_inventory_deduct body db = (missing_response, db, []).
Proof.
  intros H. unfold post_inventory_deduct.
  destruct body as [[p|] [q|] [o|] g];
    cbn [req_productId req_quantity req_orderId js_str js_num] in H |- *;
    try reflexivity.
  destruct H as [H | [H | H]]; rewrite H; cbn [negb orb]; try reflexivity.
  - now rewrite orb_true_r.
  - now rewrite orb_true_r.
Qed.

(** A body is either turned away by the check or has three usable
    fields. *)
Lemma body_checked body db :
  post_inventory_deduct body db = (missing_response, db, [])
  \/ exists p q o g,
      body = mkDeductRequest (Some p) (Some q) (Some o) g
      /\ p <> "" /\ q <> 0 /\ o <> "".
Proof.
  destruct (truthy (js_str (req_productId body))) eqn:Tp;
    [| left; apply deduct_request_rejected; auto].
  destruct (truthy (js_num (req_quantity body))) eqn:Tq;
    [| left; apply deduct_request_rejected; auto].
  destruct (truthy (js_str (req_orderId body))) eqn:To;
    [| left; apply deduct_request_rejected; auto].
  destruct body as [[p|] [q|] [o|] g]; cbn in Tp, Tq, To; try discriminate.
  apply negb_true_iff in Tp, Tq, To.
  apply String.eqb_neq in Tp, To. apply Z.eqb_neq in Tq.
  right. exists p, q, o, g. auto.
Qed.

(** The endpoint on a body that passes the check. *)
Lemma post_inventory_deduct_valid productId quantity orderId gremlin db :
  productId <> "" -> quantity <> 0 -> orderId <> "" ->
  post_inventory_deduct
    (mkDeductRequest (Some productId) (Some quantity) (Some orderId) gremlin) db
  = match deductInventory productId quantity orderId db with
    | (Returned result, db', ops) =>
        (mkResponse 200 [("message", JStr (message result));
                         ("success", JBool (success result))], db', ops)
    | (Threw msg, db', ops) => (mkResponse 400 [("error", JStr msg)], db', ops)
    end.
Proof.
  intros Hp Hq Ho. unfold post_inventory_deduct.
  cbn [req_productId req_quantity req_orderId].
  now rewrite !OrderFacts.truthy_str, OrderFacts.truthy_num by assumption.
Qed.

(** One request: either it is answered with a deduction, and then the
    order had no record, the product had the stock, and both writes were
    made; or it is not, and the database is untouched. *)
Lemma endpoint_step body db :
  let '(resp, db1, _) := post_inventory_deduct body db in
  (deducted resp = true
   /\ exists productId quantity orderId p,
       req_productId body = Some productId
       /\ req_quantity body = Some quantity
       /\ req_orderId body = Some orderId
       /\ (orderId ∉ idempotencyLog db)
       /\ product db !! productId = Some p
       /\ db1 = mkDb (<[productId := mkProduct (name p) (stock p - quantity)]>
                        (product db))
                     ({[orderId]} ∪ idempotencyLog db))
  \/ (deducted resp = false /\ db1 = db).
Proof.
  destruct (body_checked body db) as [E | (p & q & o & g & -> & Tp & Tq & To)];
    [rewrite E; right; split; reflexivity |].
  rewrite post_inventory_deduct_valid by assumption.
  destruct (InventoryFacts.deductInventory_cases p q o db)
    as [Hin | Hnin Hp | p0 Hnin Hp Hlt | p0 Hnin Hp Hle].
  - right. split; reflexivity.
  - right. split; reflexivity.
  - right. split; reflexivity.
  - left. split; [reflexivity|]. exists p, q, o, p0. repeat split; assumption.
Qed.

(** The status of the answer and what it says about the database. *)
Lemma endpoint_status body db resp db1 ops :
  post_inventory_deduct body db = (resp, db1, ops) ->
  (statusCode resp = 200
   /\ exists orderId, req_orderId body = Some orderId
                      /\ orderId ∈ idempotencyLog db1)
  \/ (statusCode resp = 400 /\ db1 = db /\ db_writes ops = []).
Proof.
  intros H.
  destruct (body_checked body db) as [E | (p & q & o & g & -> & Tp & Tq & To)];
    [rewrite E in H; inversion H; subst; right; auto |].
  rewrite post_inventory_deduct_valid in H by assumption.
  destruct (InventoryFacts.deductInventory_cases p q o db)
    as [Hin | Hnin Hp | p0 Hnin Hp Hlt | p0 Hnin Hp Hle];
    inversion H; subst; clear H.
  - left. split; [reflexivity|]. exists o. auto.
  - right. auto.
  - right. auto.
  - left. split; [reflexivity|]. exists o. split; [reflexivity|].
    cbn. apply elem_of_union_l. now apply elem_of_singleton.
Qed.

(** X4. The endpoint gives the answer 400 "Missing productId, quantity,
    or orderId", without a single database operation and with the database
    unchanged, exactly for the bodies with a missing or falsy field (no or
    empty product id, no or zero quantity, no or empty order id); every
    other body reaches the database. *)
Theorem deduct_request_check body db :
  post_inventory_deduct body db = (missing_response, db, [])
  <-> lacks_field body = true.
Proof.
  split.
  - intros H.
    destruct (body_checked body db) as [_ | (p & q & o & g & -> & Tp & Tq & To)].
    + destruct (lacks_field body) eqn:L; [reflexivity|]. exfalso.
      unfold lacks_field in L. apply orb_false_iff in L as [L Lo].
      apply orb_false_iff in L as [Lp Lq].
      apply negb_false_iff in Lp, Lq, Lo.
      destruct body as [[p|] [q|] [o|] g]; cbn in Lp, Lq, Lo; try discriminate.
      apply negb_true_iff in Lp, Lq, Lo.
      apply String.eqb_neq in Lp, Lo. apply Z.eqb_neq in Lq.
      rewrite post_inventory_deduct_valid in H by assumption.
      destruct (InventoryFacts.deductInventory_cases p q o db); discriminate H.
    + exfalso. rewrite post_inventory_deduct_valid in H by assumption.
      destruct (InventoryFacts.deductInventory_cases p q o db); discriminate H.
  - intros L. apply deduct_request_rejected. unfold lacks_field in L.
    apply orb_true_iff in L as [L | L]; [apply orb_true_iff in L as [L | L]|];
      apply negb_true_iff in L; auto.
Qed.

(** X5. For a body whose fields, where present, have the types the
    handler expects (strings for the ids, an integer for the quantity),
    served on its own by a database whose calls do not fail, the endpoint
    gives one of four answers: 200 "Stock deducted" or 200 "Stock already
    deducted (Idempotent)", and then the order has an idempotency record;
    or 400 with the missing-field or the insufficient-stock message, and
    then the database is the one before the request and no write was
    issued. (Any other error the database raised would be forwarded as a
    400 with its own message; the model has none.) *)
Theorem deduct_endpoint_answers body db resp db1 ops :
  post_inventory_deduct body db = (resp, db1, ops) ->
  (exists result orderId,
      resp = mkResponse 200 [("message", JStr (message result));
                             ("success", JBool true)]
      /\ (result = Applied \/ result = AlreadyApplied)
      /\ req_orderId body = Some orderId
      /\ orderId ∈ idempotencyLog db1)
  \/ (exists reason,
        resp = mkResponse 400 [("error", JStr reason)]
        /\ (reason = "Missing productId, quantity, or orderId"
            \/ reason = InsufficientStock)
        /\ db1 = db
        /\ db_writes ops = []).
Proof.
  intros H.
  destruct (body_checked body db) as [E | (p & q & o & g & -> & Tp & Tq & To)].
  - rewrite E in H. inversion H; subst. right. eexists. repeat split. now left.
  - rewrite post_inventory_deduct_valid in H by assumption.
    destruct (InventoryFacts.deductInventory_cases p q o db)
      as [Hin | Hnin Hp | p0 Hnin Hp Hlt | p0 Hnin Hp Hle];
      inversion H; subst; clear H.
    + left. exists AlreadyApplied, o. repeat split; auto.
    + right. exists InsufficientStock. repeat split; auto.
    + right. exists InsufficientStock. repeat split; auto.
    + left. exists Applied, o. repeat split; auto.
      cbn. apply elem_of_union_l. now apply elem_of_singleton.
Qed.

Lemma deduct_endpoint_answers_witness :
  (exists result orderId,
      mkResponse 400 [("error", JStr InsufficientStock)]
      = mkResponse 200 [("message", JStr (message result));
                        ("success", JBool true)]
      /\ (result = Applied \/ result = AlreadyApplied)
      /\ Some "o1" = Some orderId
      /\ orderId ∈ idempotencyLog Scenario.seeded)
  \/ (exists reason,
        mkResponse 400 [("error", JStr InsufficientStock)]
        = mkResponse 400 [("error", JStr reason)]
        /\ (reason = "Missing productId, quantity, or orderId"
            \/ reason = InsufficientStock)
        /\ Scenario.seeded = Scenario.seeded
        /\ db_writes [IdempotencyFindUnique "o1"; ProductFindUnique "p1"] = []).
Proof.
  apply (deduct_endpoint_answers
           (mkDeductRequest (Some "p1") (Some 21) (Some "o1") JUndefined)
           Scenario.seeded).
  vm_compute. reflexivity.
Defined.

End EndpointFacts.

(* ===================================================================== *)
(** * Properties of any sequence of deduct requests *)
(* ===================================================================== *)

Module ServingFacts.
Import Inventory Serving.

#[local] Set Warnings "-clear-no-such-hyp".

Lemma serve_cons body rest db :
  serve (body :: rest) db
  = (fst (fst (post_inventory_deduct body db))
       :: fst (serve rest (snd (fst (post_inventory_deduct body db)))),
     snd (serve rest (snd (fst (post_inventory_deduct body db))))).
Proof.
  cbn [serve]. destruct (post_inventory_deduct body db) as [[resp db1] ops].
  cbn [fst snd]. now destruct (serve rest db1).
Qed.

(** X6. Over any sequence of deduct requests, with any mix of products,
    quantities and repeated order ids, no order is answered with a
    deduction twice: the orders answered "Stock deducted" are pairwise
    distinct, none of them had an idempotency record before, and the log
    afterwards is the log before plus exactly these orders. *)
Theorem no_order_deducted_twice requests db :
  let resps := fst (serve requests db) in
  let db' := snd (serve requests db) in
  NoDup (deducted_orders requests resps)
  /\ (forall o, o ∈ deducted_orders requests resps -> o ∉ idempotencyLog db)
  /\ idempotencyLog db'
     = list_to_set (deducted_orders requests resps) ∪ idempotencyLog db.
Proof.
  revert db. induction requests as [|body rest IH]; intros db.
  - cbn. split; [constructor|]. split; [intros o Ho; inversion Ho | set_solver].
  - rewrite serve_cons. cbn [fst snd].
    pose proof (EndpointFacts.endpoint_step body db) as St.
    destruct (post_inventory_deduct body db) as [[resp db1] ops]. cbn [fst snd].
    specialize (IH db1). cbv zeta in IH. destruct IH as (Hnd & Hfresh & Hlog).
    cbn [deducted_orders].
    destruct St as [(Hd & p & q & o & p0 & Ep & Eq & Eo & Hnin & Hp & ->) | (Hd & ->)].
    + rewrite Eo, Hd. cbn [idempotencyLog] in *. split; [|split].
      * apply NoDup_cons. split; [|assumption].
        intros Hin. apply (Hfresh o Hin). set_solver.
      * intros o' [->|Hin]%elem_of_cons; [assumption|].
        intros Hbad. apply (Hfresh o' Hin). set_solver.
      * rewrite Hlog. cbn [list_to_set foldr]. set_solver.
    + rewrite Hd. destruct (req_orderId body); auto.
Qed.



End ServingFacts.

(* ===================================================================== *)
(** * Properties of the seeding *)
(* ===================================================================== *)

Module SeedingFacts.
Import Inventory Seeding.

Lemma inserts_non_empty (rows : list (string * (string * Z)))
  (m : gmap string Product) :
  m <> ∅ \/ rows <> [] ->
  fold_left (fun m row => <[fst row := mkProduct (fst (snd row)) (snd (snd row))]> m)
            rows m <> ∅.
Proof.
  revert m. induction rows as [|row rows IH]; intros m [Hm|Hr]; cbn [fold_left];
    try assumption; try congruence.
  - apply IH. left. apply insert_non_empty.
  - apply IH. left. apply insert_non_empty.
Qed.

(** X8. [seedProducts] never touches a product table that has a row, and
    never touches the idempotency log; so seeding again, at a restart or
    through [/seed], with whatever fresh ids the database would hand out,
    leaves the stock as it is. *)
Theorem seeding_only_once ids ids' db :
  ids <> [] ->
  seedProducts ids' (seedProducts ids db) = seedProducts ids db
  /\ (product db <> ∅ -> seedProducts ids db = db)
  /\ idempotencyLog (seedProducts ids db) = idempotencyLog db.
Proof.
  intros Hids.
  assert (Hstay : forall i d, product d <> ∅ -> seedProducts i d = d).
  { intros i d Hd. unfold seedProducts.
    destruct (Nat.eqb_spec (size (product d)) 0) as [E|E]; [|reflexivity].
    apply map_size_empty_iff in E. contradiction. }
  split; [|split].
  - apply Hstay. unfold seedProducts.
    destruct (Nat.eqb_spec (size (product db)) 0) as [E|E].
    + cbn [product_createMany product]. apply inserts_non_empty. right.
      destruct ids; [contradiction | discriminate].
    + intros Hempty. apply E. now apply map_size_empty_iff.
  - apply Hstay.
  - unfold seedProducts. now destruct (size (product db) =? 0)%nat.
Qed.

Lemma seeding_only_once_witness :
  seedProducts ["e"; "f"; "g"; "h"]
    (seedProducts ["a"; "b"; "c"; "d"] (mkDb ∅ ∅))
  = seedProducts ["a"; "b"; "c"; "d"] (mkDb ∅ ∅).
Proof.
  apply (seeding_only_once ["a"; "b"; "c"; "d"] ["e"; "f"; "g"; "h"] (mkDb ∅ ∅)).
  simpl. discriminate.
Defined.

(** On an empty table with four distinct ids the four rows of the seed are
    there, each with its stock. *)
Example seeded_rows :
  product (seedProducts ["a"; "b"; "c"; "d"] (mkDb ∅ ∅))
  = {["a" := mkProduct "Quantum Processor" 100;
      "b" := mkProduct "Neural Interface" 50;
      "c" := mkProduct "Flux Capacitor" 20;
      "d" := mkProduct "Hyperdrive Unit" 10]}.
Proof. vm_compute. reflexivity. Qed.

End SeedingFacts.

(* ===================================================================== *)
(** * Further properties of the consumer of [inventory_queue] *)
(* ===================================================================== *)

Module DrainFacts.
Import Inventory.

(** X9. Every delivery from [inventory_queue] is acknowledged: the head
    message leaves the queue whether or not its fulfilment succeeded, the
    messages behind it are kept in order, and [order_completion_queue]
    gains one COMPLETED event for the order exactly when the order has an
    idempotency record afterwards; otherwise it gains nothing and the
    database is unchanged. *)
Theorem inventory_delivery_always_acked q db msg rest :
  Broker.inventory_queue q = msg :: rest ->
  let q' := fst (deliver_inventory_queue q db) in
  let db' := snd (deliver_inventory_queue q db) in
  Broker.inventory_queue q' = rest
  /\ ((Broker.orderId msg ∈ idempotencyLog db'
       /\ Broker.order_completion_queue q'
          = Broker.order_completion_queue q
            ++ [Broker.mkCompletionEvent (Broker.orderId msg) (JStr "COMPLETED")
                  (JStr "Inventory deducted successfully (Async)")])
      \/ ((Broker.orderId msg ∉ idempotencyLog db')
          /\ Broker.order_completion_queue q' = Broker.order_completion_queue q
          /\ db' = db)).
Proof.
  intros Hq. unfold deliver_inventory_queue, on_inventory_message. rewrite Hq.
  destruct (InventoryFacts.deductInventory_cases (Broker.productId msg)
              (Broker.quantity msg) (Broker.orderId msg) db)
    as [Hin | Hnin Hp | p Hnin Hp Hlt | p Hnin Hp Hle]; cbn.
  - split; [reflexivity|]. left. auto.
  - split; [reflexivity|]. right. rewrite app_nil_r. auto.
  - split; [reflexivity|]. right. rewrite app_nil_r. auto.
  - split; [reflexivity|]. left. split; [|reflexivity].
    apply elem_of_union_l. now apply elem_of_singleton.
Qed.

Lemma inventory_delivery_always_acked_witness :
  Broker.inventory_queue
    (fst (deliver_inventory_queue
            (Broker.mkQueues [Broker.mkWorkItem "p1" 21 "o1";
                              Broker.mkWorkItem "p1" 1 "o2"] [])
            Scenario.seeded))
  = [Broker.mkWorkItem "p1" 1 "o2"].
Proof.
  apply (inventory_delivery_always_acked
           (Broker.mkQueues [Broker.mkWorkItem "p1" 21 "o1";
                             Broker.mkWorkItem "p1" 1 "o2"] [])
           Scenario.seeded (Broker.mkWorkItem "p1" 21 "o1")
           [Broker.mkWorkItem "p1" 1 "o2"]).
  reflexivity.
Defined.

(** X10. A work item for an order that already has an idempotency record
    (the stalled synchronous call got there first, or the message is a
    redelivery) takes no stock: the consumer leaves the database as it is,
    reports COMPLETED and acknowledges. *)
Theorem work_item_for_fulfilled_order data db :
  Broker.orderId data ∈ idempotencyLog db ->
  on_inventory_message (Some data) db
  = (mkHandled
       [Broker.mkCompletionEvent (Broker.orderId data) (JStr "COMPLETED")
          (JStr "Inventory deducted successfully (Async)")]
       true,
     db).
Proof.
  intros Hin. unfold on_inventory_message.
  now rewrite InventoryFacts.deductInventory_existing by assumption.
Qed.

Lemma work_item_for_fulfilled_order_witness :
  on_inventory_message (Some (Broker.mkWorkItem "p1" 3 "o1"))
    (mkDb ({["p1" := mkProduct "Flux Capacitor" 17]}) {["o1"]})
  = (mkHandled
       [Broker.mkCompletionEvent "o1" (JStr "COMPLETED")
          (JStr "Inventory deducted successfully (Async)")]
       true,
     mkDb ({["p1" := mkProduct "Flux Capacitor" 17]}) {["o1"]}).
Proof.
  apply (work_item_for_fulfilled_order (Broker.mkWorkItem "p1" 3 "o1")
           (mkDb ({["p1" := mkProduct "Flux Capacitor" 17]}) {["o1"]})).
  vm_compute. reflexivity.
Defined.

End DrainFacts.

(* ===================================================================== *)
(** * Further properties of [POST /orders] *)
(* ===================================================================== *)

Module OutcomeFacts.
Import Orders Responses.

(** A body passes the check exactly when both fields are usable. *)
Lemma body_accepted body :
  missing_fields body = false ->
  exists productId quantity,
    body = mkOrderRequest (Some productId) (Some quantity) (body_gremlin body)
    /\ productId <> "" /\ quantity <> 0.
Proof.
  unfold missing_fields. intros H. apply orb_false_iff in H as [Hp Hq].
  apply negb_false_iff in Hp, Hq.
  destruct body as [[p|] [q|] g]; cbn in Hp, Hq; try discriminate.
  apply negb_true_iff in Hp, Hq.
  apply String.eqb_neq in Hp. apply Z.eqb_neq in Hq.
  exists p, q. auto.
Qed.

Lemma post_orders_invalid newId latency body s :
  missing_fields body = true ->
  post_orders newId latency body s = (Some invalid_response, s).
Proof. intros H. unfold post_orders. now rewrite H. Qed.

(** The ways the handler can end on a body that passes the check. *)
Lemma placement_outcomes newId latency productId quantity gremlin s :
  productId <> "" -> quantity <> 0 ->
  exists resp s' st,
    post_orders newId latency
      (mkOrderRequest (Some productId) (Some quantity) gremlin) s
    = (Some resp, s')
    /\ order s' = <[newId := mkOrder newId productId quantity st]> (order s)
    /\ channel s' = channel s
    /\ Broker.order_completion_queue (queues s')
       = Broker.order_completion_queue (queues s)
    /\ ((st = CONFIRMED
         /\ resp = mkResponse 201 (order_json (mkOrder newId productId quantity CONFIRMED))
         /\ queues s' = queues s
         /\ response_time latency gremlin <= TIMEOUT_MS
         /\ newId ∈ Inventory.idempotencyLog (inventory s'))
        \/ (st = QUEUED
            /\ resp = queued_response newId
            /\ TIMEOUT_MS < response_time latency gremlin
            /\ channel s = Broker.ChannelOpen
            /\ Broker.inventory_queue (queues s')
               = Broker.inventory_queue (queues s)
                 ++ [Broker.mkWorkItem productId quantity newId]
            /\ inventory s' = inventory s)
        \/ (st = FAILED
            /\ resp = failed_response newId
            /\ queues s' = queues s
            /\ inventory s' = inventory s)).
Proof.
  intros Hp Hq.
  rewrite OrderFacts.post_orders_valid by assumption. cbv zeta.
  destruct (Z.ltb_spec TIMEOUT_MS (response_time latency gremlin)) as [Hlate|Hin].
  - rewrite OrderFacts.axios_post_deduct_late by exact Hlate.
    unfold on_inventory_error. rewrite OrderFacts.timeout_error_is_timeout.
    OrderFacts.sys_cbn.
    destruct (channel s) eqn:Hch.
    + erewrite OrderFacts.general_failure_found
        by (OrderFacts.sys_cbn; apply lookup_insert_eq).
      do 2 eexists. exists FAILED. split; [reflexivity|]. OrderFacts.sys_cbn.
      split; [apply insert_insert_eq|]. do 2 (split; [reflexivity|]).
      right. right. repeat split; auto.
    + erewrite OrderFacts.order_update_found
        by (OrderFacts.sys_cbn; apply lookup_insert_eq).
      do 2 eexists. exists QUEUED. split; [reflexivity|]. OrderFacts.sys_cbn.
      split; [apply insert_insert_eq|]. do 2 (split; [reflexivity|]).
      right. left. repeat split; auto.
    + erewrite OrderFacts.general_failure_found
        by (OrderFacts.sys_cbn; apply lookup_insert_eq).
      do 2 eexists. exists FAILED. split; [reflexivity|]. OrderFacts.sys_cbn.
      split; [apply insert_insert_eq|]. do 2 (split; [reflexivity|]).
      right. right. repeat split; auto.
  - unfold axios_post_deduct. cbn [Inventory.req_gremlin].
    apply Z.ltb_ge in Hin. rewrite Hin. apply Z.ltb_ge in Hin.
    OrderFacts.sys_cbn.
    destruct (Inventory.post_inventory_deduct _ (inventory s))
      as [[iresp db'] ops] eqn:E.
    apply EndpointFacts.endpoint_status in E.
    destruct E as [(Hc & o & Ho & Hlog) | (Hc & -> & _)]; rewrite Hc;
      cbn [Z.leb Z.ltb Z.compare Pos.compare Pos.compare_cont andb];
      rewrite ?Hc; cbn [Z.eqb Pos.eqb].
    + erewrite OrderFacts.order_update_found
        by (OrderFacts.sys_cbn; apply lookup_insert_eq).
      do 2 eexists. exists CONFIRMED. split; [reflexivity|]. OrderFacts.sys_cbn.
      split; [apply insert_insert_eq|]. do 2 (split; [reflexivity|]).
      left. cbn in Ho. injection Ho as <-. repeat split; auto.
    + unfold on_inventory_error. rewrite OrderFacts.bad_request_is_not_timeout.
      erewrite OrderFacts.general_failure_found
        by (OrderFacts.sys_cbn; apply lookup_insert_eq).
      do 2 eexists. exists FAILED. split; [reflexivity|]. OrderFacts.sys_cbn.
      split; [apply insert_insert_eq|]. do 2 (split; [reflexivity|]).
      right. right. repeat split; auto.
Qed.

(** X11. Whenever [POST /orders] has sent a response, the status code
    and the order table agree: 400 goes with nothing changed, and otherwise
    the new order is in the table, CONFIRMED with 201, QUEUED with 202 and
    FAILED with 503; an order for which a response went out is never left
    PENDING. (For bodies with fields of the expected types; a request whose
    [prisma.order.create] is rejected gets no response and is not covered.) *)
Theorem response_matches_order_status newId latency body s resp s' :
  post_orders newId latency body s = (Some resp, s') ->
  (statusCode resp = 400 /\ s' = s)
  \/ exists o,
      order s' !! newId = Some o
      /\ ((statusCode resp = 201 /\ status o = CONFIRMED)
          \/ (statusCode resp = 202 /\ status o = QUEUED)
          \/ (statusCode resp = 503 /\ status o = FAILED)).
Proof.
  intros H. destruct (missing_fields body) eqn:M.
  - rewrite post_orders_invalid in H by assumption. inversion H; subst.
    left. split; reflexivity.
  - destruct (body_accepted body M) as (p & q & E & Hp & Hq).
    rewrite E in H.
    destruct (placement_outcomes newId latency p q (body_gremlin body) s Hp Hq)
      as (resp0 & s0 & st & H0 & Ho & _ & _ & Hcase).
    rewrite H0 in H. inversion H; subst; clear H.
    right. exists (mkOrder newId p q st). split.
    + rewrite Ho. apply lookup_insert_eq.
    + cbn [status].
      destruct Hcase as [(-> & -> & _) | [(-> & -> & _) | (-> & -> & _)]]; auto.
Qed.

Lemma response_matches_order_status_witness :
  (statusCode (queued_response "o1") = 400
   /\ snd (post_orders "o1" 50 (Scenario.gremlin 1)
             (Scenario.deployment Broker.ChannelOpen))
      = Scenario.deployment Broker.ChannelOpen)
  \/ exists o,
      order (snd (post_orders "o1" 50 (Scenario.gremlin 1)
                    (Scenario.deployment Broker.ChannelOpen))) !! "o1" = Some o
      /\ ((statusCode (queued_response "o1") = 201 /\ status o = CONFIRMED)
          \/ (statusCode (queued_response "o1") = 202 /\ status o = QUEUED)
          \/ (statusCode (queued_response "o1") = 503 /\ status o = FAILED)).
Proof.
  apply (response_matches_order_status "o1" 50 (Scenario.gremlin 1)
           (Scenario.deployment Broker.ChannelOpen)).
  vm_compute. reflexivity.
Defined.

(** X12. Placing an order touches no other order, does not touch the
    channel, and puts nothing on [order_completion_queue]. *)
Theorem placement_touches_one_order newId latency body s :
  let s' := snd (post_orders newId latency body s) in
  (forall other, other <> newId -> order s' !! other = order s !! other)
  /\ channel s' = channel s
  /\ Broker.order_completion_queue (queues s')
     = Broker.order_completion_queue (queues s).
Proof.
  destruct (missing_fields body) eqn:M.
  - rewrite post_orders_invalid by assumption. cbn. auto.
  - destruct (body_accepted body M) as (p & q & -> & Hp & Hq). cbn [body_gremlin].
    destruct (placement_outcomes newId latency p q (body_gremlin
                (mkOrderRequest (Some p) (Some q) (body_gremlin body))) s Hp Hq)
      as (resp & s' & st & H & Ho & Hc & Hq' & _).
    cbn [body_gremlin] in H. rewrite H. cbn [snd].
    repeat split; try assumption.
    intros other Hne. rewrite Ho. now apply lookup_insert_ne.
Qed.

(** X13. Only a call that ran past the deadline falls back to the queue:
    when the inventory service answers within 2000 ms, whatever it
    answers, nothing is put on either queue and the response is not the
    202. *)
Theorem no_fallback_within_deadline newId latency body s :
  response_time latency (body_gremlin body) <= TIMEOUT_MS ->
  queues (snd (post_orders newId latency body s)) = queues s
  /\ fst (post_orders newId latency body s) <> Some (queued_response newId).
Proof.
  intros Hin. destruct (missing_fields body) eqn:M.
  - rewrite post_orders_invalid by assumption. cbn. split; [reflexivity|].
    discriminate.
  - destruct (body_accepted body M) as (p & q & E & Hp & Hq).
    rewrite E in Hin |- *. cbn [body_gremlin] in *.
    destruct (placement_outcomes newId latency p q (body_gremlin body) s Hp Hq)
      as (resp & s' & st & H & _ & _ & _ & Hcase).
    rewrite H. cbn [fst snd].
    destruct Hcase as [(_ & -> & Hqs & _) | [(_ & _ & Hlate & _) | (_ & -> & Hqs & _)]].
    + split; [assumption | discriminate].
    + lia.
    + split; [assumption | discriminate].
Qed.

Lemma no_fallback_within_deadline_witness :
  queues (snd (post_orders "o1" 50 (Scenario.plain 21)
                 (Scenario.deployment Broker.ChannelOpen)))
  = queues (Scenario.deployment Broker.ChannelOpen)
  /\ fst (post_orders "o1" 50 (Scenario.plain 21)
            (Scenario.deployment Broker.ChannelOpen))
     <> Some (queued_response "o1").
Proof.
  apply (no_fallback_within_deadline "o1" 50 (Scenario.plain 21)
           (Scenario.deployment Broker.ChannelOpen)).
  vm_compute. discriminate.
Defined.

(** X14. A placement that the inventory service answered within the
    deadline, and that is not answered 201, has changed nothing in the
    inventory database: the stock and the idempotency log are what they
    were before the request. *)
Theorem stock_untouched_unless_confirmed newId latency body s resp s' :
  response_time latency (body_gremlin body) <= TIMEOUT_MS ->
  post_orders newId latency body s = (Some resp, s') ->
  statusCode resp <> 201 ->
  inventory s' = inventory s.
Proof.
  intros Hin H Hc. destruct (missing_fields body) eqn:M.
  - rewrite post_orders_invalid in H by assumption. now inversion H.
  - destruct (body_accepted body M) as (p & q & E & Hp & Hq).
    rewrite E in H.
    destruct (placement_outcomes newId latency p q (body_gremlin body) s Hp Hq)
      as (resp0 & s0 & st & H0 & _ & _ & _ & Hcase).
    rewrite H0 in H. inversion H; subst; clear H.
    destruct Hcase as [(_ & -> & _) | [(_ & _ & Hlate & _) | (_ & _ & _ & Hi)]];
      [now contradiction Hc | lia | assumption].
Qed.

Lemma stock_untouched_unless_confirmed_witness :
  inventory (snd (post_orders "o1" 50 (Scenario.plain 21)
                    (Scenario.deployment Broker.ChannelOpen)))
  = inventory (Scenario.deployment Broker.ChannelOpen).
Proof.
  apply (stock_untouched_unless_confirmed "o1" 50 (Scenario.plain 21)
           (Scenario.deployment Broker.ChannelOpen) (failed_response "o1")).
  - vm_compute. discriminate.
  - vm_compute. reflexivity.
  - simpl. lia.
Defined.

(** X15. A placement request without a product id, with an empty one,
    without a quantity or with quantity 0 is answered 400 "Missing
    productId or quantity"; no order row is created and nothing else
    changes. *)
Theorem placement_rejected newId latency body s :
  body_productId body = None \/ body_productId body = Some ""
  \/ body_quantity body = None \/ body_quantity body = Some 0 ->
  post_orders newId latency body s = (Some invalid_response, s).
Proof.
  intros H. apply post_orders_invalid. unfold missing_fields.
  destruct H as [-> | [-> | [-> | ->]]]; cbn; try reflexivity;
    now rewrite orb_true_r.
Qed.

Lemma placement_rejected_witness :
  post_orders "o1" 50 (Scenario.plain 0) (Scenario.deployment Broker.ChannelOpen)
  = (Some invalid_response, Scenario.deployment Broker.ChannelOpen).
Proof.
  apply (placement_rejected "o1" 50 (Scenario.plain 0)
           (Scenario.deployment Broker.ChannelOpen)).
  right. right. right. reflexivity.
Defined.

(** X16. A placement request with usable fields and no fault flag,
    answered by the inventory service within the deadline, for a quantity
    the stock covers and an order id with no idempotency record, is
    answered 201 with the order CONFIRMED; the order went PENDING then
    CONFIRMED, the stock is down by the quantity, the order has its
    idempotency record, and nothing was put on the queues. *)
Theorem covered_order_is_confirmed newId latency productId quantity gremlin s p :
  productId <> "" -> quantity <> 0 -> newId <> "" ->
  strict_eq_true gremlin = false ->
  latency <= TIMEOUT_MS ->
  newId ∉ Inventory.idempotencyLog (inventory s) ->
  Inventory.product (inventory s) !! productId = Some p ->
  quantity <= Inventory.stock p ->
  exists s',
    post_orders newId latency
      (mkOrderRequest (Some productId) (Some quantity) gremlin) s
    = (Some (mkResponse 201
               (order_json (mkOrder newId productId quantity CONFIRMED))), s')
    /\ order s' !! newId = Some (mkOrder newId productId quantity CONFIRMED)
    /\ statusWrites s' = statusWrites s ++ [(newId, PENDING); (newId, CONFIRMED)]
    /\ inventory s'
       = Inventory.mkDb
           (<[productId := Inventory.mkProduct (Inventory.name p)
                             (Inventory.stock p - quantity)]>
              (Inventory.product (inventory s)))
           ({[newId]} ∪ Inventory.idempotencyLog (inventory s))
    /\ queues s' = queues s.
Proof.
  intros Hp Hq Hid Hg Hlat Hnin Hprod Hle.
  rewrite OrderFacts.post_orders_valid by assumption. cbv zeta.
  unfold axios_post_deduct, response_time.
  cbn [Inventory.req_gremlin]. rewrite Hg.
  apply Z.ltb_ge in Hlat. rewrite Hlat. OrderFacts.sys_cbn.
  rewrite EndpointFacts.post_inventory_deduct_valid by assumption.
  rewrite (InventoryFacts.deductInventory_fresh _ _ _ _ p) by assumption.
  cbn [statusCode Z.leb Z.ltb Z.compare Pos.compare Pos.compare_cont andb
       Z.eqb Pos.eqb].
  erewrite OrderFacts.order_update_found
    by (OrderFacts.sys_cbn; apply lookup_insert_eq).
  eexists. split; [reflexivity|]. OrderFacts.sys_cbn. repeat split.
  - apply lookup_insert_eq.
  - now rewrite <- app_assoc.
Qed.

Lemma covered_order_is_confirmed_witness :
  exists s',
    post_orders "o1" 50 (Scenario.plain 3) (Scenario.deployment Broker.ChannelOpen)
    = (Some (mkResponse 201 (order_json (mkOrder "o1" "p1" 3 CONFIRMED))), s')
    /\ order s' !! "o1" = Some (mkOrder "o1" "p1" 3 CONFIRMED).
Proof.
  destruct (covered_order_is_confirmed "o1" 50 "p1" 3 (JBool false)
              (Scenario.deployment Broker.ChannelOpen)
              (Inventory.mkProduct "Flux Capacitor" 20))
    as (s' & H & Ho & _).
  - vm_compute. discriminate.
  - lia.
  - vm_compute. discriminate.
  - reflexivity.
  - vm_compute. discriminate.
  - vm_compute. discriminate.
  - vm_compute. reflexivity.
  - simpl. lia.
  - exists s'. split; assumption.
Defined.

(** The handler, with the state it leaves, when the call runs past the
    deadline. *)
Lemma post_orders_late newId latency productId quantity gremlin s :
  productId <> "" -> quantity <> 0 ->
  TIMEOUT_MS < response_time latency gremlin ->
  post_orders newId latency
    (mkOrderRequest (Some productId) (Some quantity) gremlin) s
  = let stalled := inflight s
                   ++ [Inventory.mkDeductRequest (Some productId) (Some quantity)
                         (Some newId) gremlin] in
    let placed st :=
      <[newId := mkOrder newId productId quantity st]>
        (<[newId := mkOrder newId productId quantity PENDING]> (order s)) in
    let failed :=
      (Some (failed_response newId),
       mkSystem (placed FAILED)
         ((statusWrites s ++ [(newId, PENDING)]) ++ [(newId, FAILED)])
         (channel s) (queues s) (inventory s) stalled) in
    match channel s with
    | Broker.ChannelOpen =>
        (Some (queued_response newId),
         mkSystem (placed QUEUED)
           ((statusWrites s ++ [(newId, PENDING)]) ++ [(newId, QUEUED)])
           Broker.ChannelOpen
           (Broker.mkQueues
              (Broker.inventory_queue (queues s)
               ++ [Broker.mkWorkItem productId quantity newId])
              (Broker.order_completion_queue (queues s)))
           (inventory s) stalled)
    | _ => failed
    end.
Proof.
  intros Hp Hq Hlate.
  rewrite OrderFacts.post_orders_valid by assumption. cbv zeta.
  rewrite OrderFacts.axios_post_deduct_late by exact Hlate.
  unfold on_inventory_error. rewrite OrderFacts.timeout_error_is_timeout.
  OrderFacts.sys_cbn.
  destruct (channel s) eqn:Hch.
  - erewrite OrderFacts.general_failure_found
      by (OrderFacts.sys_cbn; apply lookup_insert_eq).
    OrderFacts.sys_cbn. reflexivity.
  - erewrite OrderFacts.order_update_found
      by (OrderFacts.sys_cbn; apply lookup_insert_eq).
    OrderFacts.sys_cbn. reflexivity.
  - erewrite OrderFacts.general_failure_found
      by (OrderFacts.sys_cbn; apply lookup_insert_eq).
    OrderFacts.sys_cbn. reflexivity.
Qed.

(** X17. The fault flag always forces the fallback: with [gremlin: true]
    and any non-negative latency the stall of 5000 ms exceeds the deadline
    of 2000 ms, so the request is never answered 201. It is answered 202
    when the channel is open and 503 otherwise, the inventory database is
    unchanged at that time, and the stalled request is still in flight. *)
Theorem fault_flag_forces_fallback newId latency productId quantity s :
  productId <> "" -> quantity <> 0 ->
  0 <= latency ->
  let result := post_orders newId latency
                  (mkOrderRequest (Some productId) (Some quantity) (JBool true)) s in
  fst result
  = Some (match channel s with
          | Broker.ChannelOpen => queued_response newId
          | _ => failed_response newId
          end)
  /\ inventory (snd result) = inventory s
  /\ inflight (snd result)
     = inflight s ++ [Inventory.mkDeductRequest (Some productId) (Some quantity)
                        (Some newId) (JBool true)].
Proof.
  intros Hp Hq Hlat result. subst result.
  rewrite post_orders_late; try assumption.
  - cbv zeta. destruct (channel s); cbn; auto.
  - unfold response_time, TIMEOUT_MS, GREMLIN_DELAY_MS. cbn. lia.
Qed.

Lemma fault_flag_forces_fallback_witness :
  fst (post_orders "o1" 0 (Scenario.gremlin 1) (Scenario.deployment Broker.NoChannel))
  = Some (failed_response "o1").
Proof.
  apply (fault_flag_forces_fallback "o1" 0 "p1" 1
           (Scenario.deployment Broker.NoChannel)).
  - vm_compute. discriminate.
  - lia.
  - lia.
Defined.

End OutcomeFacts.

(* ===================================================================== *)
(** * Properties of the completion consumer and of the whole fallback *)
(* ===================================================================== *)

Module FallbackFacts.
Import Orders Responses.

(** X18. Every delivery from [order_completion_queue] is acknowledged: the
    head event leaves the queue, [inventory_queue] and the inventory
    database are untouched, no order but the one the event names is
    touched, and an event that names no existing order changes nothing
    else at all. *)
Theorem completion_delivery_always_acked s event rest :
  Broker.order_completion_queue (queues s) = event :: rest ->
  let s' := deliver_completion s in
  Broker.order_completion_queue (queues s') = rest
  /\ Broker.inventory_queue (queues s') = Broker.inventory_queue (queues s)
  /\ inventory s' = inventory s
  /\ (forall other, other <> Broker.ev_orderId event ->
                    order s' !! other = order s !! other)
  /\ (order s !! Broker.ev_orderId event = None ->
      order s' = order s /\ statusWrites s' = statusWrites s).
Proof.
  intros Hq. unfold deliver_completion. rewrite Hq.
  destruct (order s !! Broker.ev_orderId event) as [o|] eqn:Ho.
  - rewrite (OrderFacts.applyCompletion_found _ _ _ Ho). OrderFacts.sys_cbn.
    repeat split; try discriminate.
    intros other Hne. now rewrite lookup_insert_ne by congruence.
  - rewrite (OrderFacts.applyCompletion_missing _ _ Ho). OrderFacts.sys_cbn.
    repeat split.
Qed.

Lemma completion_delivery_always_acked_witness :
  Broker.order_completion_queue
    (queues (deliver_completion
               (mkSystem ∅ [] Broker.ChannelOpen
                  (Broker.mkQueues []
                     [Broker.mkCompletionEvent "ghost" (JStr "COMPLETED") JUndefined])
                  Scenario.seeded [])))
  = [].
Proof.
  apply (completion_delivery_always_acked
           (mkSystem ∅ [] Broker.ChannelOpen
              (Broker.mkQueues []
                 [Broker.mkCompletionEvent "ghost" (JStr "COMPLETED") JUndefined])
              Scenario.seeded [])
           (Broker.mkCompletionEvent "ghost" (JStr "COMPLETED") JUndefined) []).
  reflexivity.
Defined.

(** X19. A completion event delivered twice has the effect of one
    delivery on the order table: applying the same event again changes no
    order. *)
Theorem duplicate_completion_is_harmless event s :
  order (applyCompletion event (applyCompletion event s))
  = order (applyCompletion event s).
Proof.
  unfold applyCompletion.
  destruct (order s !! Broker.ev_orderId event) as [o|] eqn:Ho.
  - rewrite (OrderFacts.applyCompletion_found _ _ _ Ho). cbn [snd].
    erewrite OrderFacts.applyCompletion_found
      by (OrderFacts.sys_cbn; apply lookup_insert_eq).
    OrderFacts.sys_cbn. apply insert_insert_eq.
  - rewrite (OrderFacts.applyCompletion_missing _ _ Ho). cbn [snd].
    now rewrite (OrderFacts.applyCompletion_missing _ _ Ho).
Qed.

(** X20. The whole fallback deducts once. An order placed through a call
    that runs past the deadline, with the channel open, on a quiet system,
    for a quantity the stock covers, is QUEUED with its work item on the
    queue and the stalled request in flight. Whichever of the two the
    inventory service serves first, once both are served and the
    completion event is delivered the outcome is the same: the order is
    COMPLETED, the stock is down by the quantity once, the queues are
    empty and nothing is in flight. *)
Theorem fallback_deducts_once newId latency productId quantity gremlin s p :
  productId <> "" -> quantity <> 0 -> newId <> "" ->
  TIMEOUT_MS < response_time latency gremlin ->
  channel s = Broker.ChannelOpen ->
  queues s = Broker.mkQueues [] [] ->
  inflight s = [] ->
  newId ∉ Inventory.idempotencyLog (inventory s) ->
  Inventory.product (inventory s) !! productId = Some p ->
  quantity <= Inventory.stock p ->
  let s0 := snd (post_orders newId latency
                   (mkOrderRequest (Some productId) (Some quantity) gremlin) s) in
  let s1 := deliver_completion (deliver_inventory (finish_inflight s0)) in
  let s2 := deliver_completion (finish_inflight (deliver_inventory s0)) in
  s2 = s1
  /\ order s0 !! newId = Some (mkOrder newId productId quantity QUEUED)
  /\ order s1 !! newId = Some (mkOrder newId productId quantity COMPLETED)
  /\ inventory s1
     = Inventory.mkDb
         (<[productId := Inventory.mkProduct (Inventory.name p)
                           (Inventory.stock p - quantity)]>
            (Inventory.product (inventory s)))
         ({[newId]} ∪ Inventory.idempotencyLog (inventory s))
  /\ queues s1 = Broker.mkQueues [] []
  /\ inflight s1 = [].
Proof.
  intros Hp Hq Hid Hlate Hch Hqs Hfl Hnin Hprod Hle s0 s1 s2.
  assert (Hlogged : newId ∈ ({[newId]} ∪ Inventory.idempotencyLog (inventory s)))
    by (apply elem_of_union_l; now apply elem_of_singleton).
  assert (E0 : s0 = mkSystem
                 (<[newId := mkOrder newId productId quantity QUEUED]>
                    (<[newId := mkOrder newId productId quantity PENDING]> (order s)))
                 ((statusWrites s ++ [(newId, PENDING)]) ++ [(newId, QUEUED)])
                 Broker.ChannelOpen
                 (Broker.mkQueues [Broker.mkWorkItem productId quantity newId] [])
                 (inventory s)
                 [Inventory.mkDeductRequest (Some productId) (Some quantity)
                    (Some newId) gremlin]).
  { subst s0. rewrite OutcomeFacts.post_orders_late by assumption. cbv zeta.
    rewrite Hch, Hqs, Hfl. reflexivity. }
  assert (E1 : s1 = mkSystem
                 (<[newId := mkOrder newId productId quantity COMPLETED]>
                    (<[newId := mkOrder newId productId quantity QUEUED]>
                       (<[newId := mkOrder newId productId quantity PENDING]>
                          (order s))))
                 (((statusWrites s ++ [(newId, PENDING)]) ++ [(newId, QUEUED)])
                  ++ [(newId, COMPLETED)])
                 Broker.ChannelOpen (Broker.mkQueues [] [])
                 (Inventory.mkDb
                    (<[productId := Inventory.mkProduct (Inventory.name p)
                                      (Inventory.stock p - quantity)]>
                       (Inventory.product (inventory s)))
                    ({[newId]} ∪ Inventory.idempotencyLog (inventory s)))
                 []).
  { subst s1. rewrite E0.
    unfold finish_inflight. cbn [inflight inventory].
    rewrite EndpointFacts.post_inventory_deduct_valid by assumption.
    rewrite (InventoryFacts.deductInventory_fresh _ _ _ _ p) by assumption.
    unfold deliver_inventory, Inventory.deliver_inventory_queue,
      Inventory.on_inventory_message.
    OrderFacts.sys_cbn.
    cbn [Broker.productId Broker.quantity Broker.orderId].
    rewrite InventoryFacts.deductInventory_existing by exact Hlogged.
    cbn [Inventory.acked Inventory.published app].
    unfold deliver_completion. OrderFacts.sys_cbn.
    erewrite OrderFacts.applyCompletion_found
      by (OrderFacts.sys_cbn; cbn [Broker.ev_orderId]; apply lookup_insert_eq).
    OrderFacts.sys_cbn. reflexivity. }
  assert (E2 : s2 = s1).
  { rewrite E1. subst s2. rewrite E0.
    unfold deliver_inventory, Inventory.deliver_inventory_queue,
      Inventory.on_inventory_message.
    OrderFacts.sys_cbn.
    cbn [Broker.productId Broker.quantity Broker.orderId].
    rewrite (InventoryFacts.deductInventory_fresh _ _ _ _ p) by assumption.
    cbn [Inventory.acked Inventory.published app].
    unfold finish_inflight. cbn [inflight inventory].
    rewrite EndpointFacts.post_inventory_deduct_valid by assumption.
    rewrite InventoryFacts.deductInventory_existing by exact Hlogged.
    unfold deliver_completion. OrderFacts.sys_cbn.
    erewrite OrderFacts.applyCompletion_found
      by (OrderFacts.sys_cbn; cbn [Broker.ev_orderId]; apply lookup_insert_eq).
    OrderFacts.sys_cbn. reflexivity. }
  split; [exact E2|].
  split; [rewrite E0; cbn [order]; apply lookup_insert_eq|].
  rewrite E1. cbn [order inventory queues inflight].
  split; [apply lookup_insert_eq|]. auto.
Qed.

Lemma fallback_deducts_once_witness :
  deliver_completion
    (finish_inflight
       (deliver_inventory
          (snd (post_orders "o1" 50 (Scenario.gremlin 3)
                  (Scenario.deployment Broker.ChannelOpen)))))
  = deliver_completion
      (deliver_inventory
         (finish_inflight
            (snd (post_orders "o1" 50 (Scenario.gremlin 3)
                    (Scenario.deployment Broker.ChannelOpen))))).
Proof.
  apply (fallback_deducts_once "o1" 50 "p1" 3 (JBool true)
           (Scenario.deployment Broker.ChannelOpen)
           (Inventory.mkProduct "Flux Capacitor" 20)).
  - vm_compute. discriminate.
  - lia.
  - vm_compute. discriminate.
  - vm_compute. reflexivity.
  - reflexivity.
  - reflexivity.
  - reflexivity.
  - vm_compute. discriminate.
  - vm_compute. reflexivity.
  - simpl. lia.
Defined.

End FallbackFacts.

(* ===================================================================== *)
(** * Further properties of the rolling-window statistics *)
(* ===================================================================== *)

Module WindowFacts.
Import Stats.

Lemma fresh_later now now' r :
  now' <= now -> fresh now r = true -> fresh now' r = true.
Proof.
  unfold fresh. intros Hle H. apply Z.leb_le in H. apply Z.leb_le. lia.
Qed.

(** X21. The periodic cleanup never changes what [/stats] reports: for a
    cleanup run at [now'] and a read at [now], no earlier than the
    cleanup, the response computed from the cleaned list is the response
    computed from the full list. And the cleanup keeps only samples that
    are at most 30 s old when it runs. *)
Theorem cleanup_is_invisible now now' samples :
  now' <= now ->
  stats now (cleanup now' samples) = stats now samples
  /\ Forall (fun r => now' - time r <= WINDOW_SIZE_MS) (cleanup now' samples).
Proof.
  intros Hle. split.
  - assert (E : List.filter (fresh now) (cleanup now' samples)
                = List.filter (fresh now) samples).
    { unfold cleanup. induction samples as [|r rest IH]; [reflexivity|].
      cbn [List.filter]. destruct (fresh now' r) eqn:F'.
      - cbn [List.filter]. now rewrite IH.
      - destruct (fresh now r) eqn:F; [|exact IH].
        rewrite (fresh_later now now' r Hle F) in F'. discriminate. }
    unfold stats. now rewrite E.
  - apply List.Forall_forall. intros r Hr. unfold cleanup in Hr.
    apply filter_In in Hr as [_ F]. unfold fresh in F. now apply Z.leb_le in F.
Qed.

Lemma cleanup_is_invisible_witness :
  stats 36000 (cleanup 35000 [mkSample 0 1%float; mkSample 10000 2%float; mkSample 35000 3%float])
  = stats 36000 [mkSample 0 1%float; mkSample 10000 2%float; mkSample 35000 3%float].
Proof.
  apply (cleanup_is_invisible 36000 35000
           [mkSample 0 1%float; mkSample 10000 2%float; mkSample 35000 3%float]).
  lia.
Defined.

(** X23. A request recorded at [finish] is counted by every read made up
    to 30 s later, on top of what was counted before, and is ignored by
    every later read, which reports what it would have reported without
    it. *)
Theorem recorded_request_is_counted start finish now samples :
  if now - finish <=? WINDOW_SIZE_MS
  then requestCount (stats now (record start finish samples))
       = S (requestCount (stats now samples))
  else stats now (record start finish samples) = stats now samples.
Proof.
  unfold stats, record. rewrite List.filter_app. cbn [List.filter].
  set (d := PrimFloat.div _ _).
  replace (fresh now (mkSample finish d))
    with (now - finish <=? WINDOW_SIZE_MS) by reflexivity.
  destruct (now - finish <=? WINDOW_SIZE_MS).
  - cbn [requestCount]. rewrite length_app. cbn [length]. lia.
  - now rewrite app_nil_r.
Qed.

End WindowFacts.

(* ===================================================================== *)
(** * Properties of the dashboard's poller and of the connection loop *)
(* ===================================================================== *)

Module DashboardFacts.
Import Dashboard.

Lemma filter_same_length {A} (f : A -> bool) (l : list A) :
  length (List.filter f l) = length l -> List.filter f l = l.
Proof.
  induction l as [|x l IH]; [reflexivity|]. cbn [List.filter].
  destruct (f x); cbn [length]; intros H.
  - f_equal. apply IH. lia.
  - pose proof (List.filter_length_le f l). lia.
Qed.

Lemma keep_polling_spec orders id :
  keep_polling orders id = true
  <-> forall o, find_order orders id = Some o ->
                Orders.status o <> Orders.COMPLETED
                /\ Orders.status o <> Orders.FAILED.
Proof.
  unfold keep_polling. destruct (find_order orders id) as [o|].
  - destruct o as [i p q st]. cbn [Orders.status]. split.
    + intros H o' [= <-]. cbn [Orders.status].
      destruct st; cbn in H; try discriminate; split; discriminate.
    + intros H. destruct (H _ eq_refl) as [Hc Hf]. cbn [Orders.status] in *.
      destruct st; try reflexivity; congruence.
  - split; [intros _ o H; discriminate | reflexivity].
Qed.

(** X24. One tick of the poller keeps exactly the ids whose order, as
    found first in the fetched list, is neither COMPLETED nor FAILED
    (ids with no order in the list are kept): the guard on the length
    changes nothing, the new list is the filtered list, in the same order;
    and a second tick on the same fetched orders drops nothing more. *)
Theorem poll_keeps_unfinished orders queuedOrderIds :
  poll orders queuedOrderIds = List.filter (keep_polling orders) queuedOrderIds
  /\ (forall id,
        In id (poll orders queuedOrderIds)
        <-> In id queuedOrderIds
            /\ forall o, find_order orders id = Some o ->
                         Orders.status o <> Orders.COMPLETED
                         /\ Orders.status o <> Orders.FAILED)
  /\ poll orders (poll orders queuedOrderIds) = poll orders queuedOrderIds.
Proof.
  assert (E : forall ids, poll orders ids = List.filter (keep_polling orders) ids).
  { intros ids. unfold poll.
    destruct (Nat.eqb_spec (length (List.filter (keep_polling orders) ids))
                           (length ids)) as [H|H]; cbn [negb]; [|reflexivity].
    symmetry. now apply filter_same_length. }
  split; [apply E|]. split.
  - intros id. rewrite E, filter_In, keep_polling_spec. reflexivity.
  - rewrite !E. apply filter_same_length. f_equal.
    induction queuedOrderIds as [|id ids IH]; [reflexivity|].
    cbn [List.filter]. destruct (keep_polling orders id) eqn:K.
    + cbn [List.filter]. rewrite K. now rewrite IH.
    + exact IH.
Qed.

End DashboardFacts.

Module SupervisorFacts.
Import Supervisor.

(** X25. [connectToRabbit] returns at the first attempt that gets through
    all four steps: by then the channel is assigned and open, the consumer
    is registered, and the loop has slept 5000 ms for each attempt that
    failed before, wherever in the attempt the failure was. *)
Theorem connect_returns_at_first_success attempts sv :
  In Connected attempts ->
  connectToRabbit attempts sv
  = Some (mkService Broker.ChannelOpen true
            (slept sv
             + RETRY_DELAY_MS * Z.of_nat (failures_before_success attempts))).
Proof.
  revert sv. induction attempts as [|a rest IH]; intros sv Hin; [destruct Hin|].
  destruct a; cbn [connectToRabbit failures_before_success].
  1-3: rewrite IH by (destruct Hin as [H|H]; [discriminate H | exact H]);
       cbn [slept]; do 2 f_equal; lia.
  do 2 f_equal. lia.
Qed.

Lemma connect_returns_at_first_success_witness :
  connectToRabbit [ConnectFails; AssertQueueFails; Connected; ConnectFails]
    (mkService Broker.NoChannel false 0)
  = Some (mkService Broker.ChannelOpen true 10000).
Proof.
  rewrite (connect_returns_at_first_success
             [ConnectFails; AssertQueueFails; Connected; ConnectFails]
             (mkService Broker.NoChannel false 0)).
  - reflexivity.
  - simpl. auto.
Defined.

(** As long as no attempt succeeds the loop keeps retrying. *)
Lemma connect_keeps_retrying attempts sv :
  ~ In Connected attempts -> connectToRabbit attempts sv = None.
Proof.
  revert sv. induction attempts as [|a rest IH]; intros sv Hn; [reflexivity|].
  destruct a; cbn [connectToRabbit];
    try (apply IH; intros H; apply Hn; now right).
  exfalso. apply Hn. now left.
Qed.

End SupervisorFacts.

Module StalledFacts.
Import Orders Responses.

(** X26. The deadline does not cancel the stalled request. An order whose
    call ran past the deadline while the work queue was unavailable is
    answered 503 and is FAILED; when the inventory service then gets to
    the stalled request, for a quantity the stock covers, the stock is
    deducted and the idempotency record written all the same, and the
    order stays FAILED. *)
Theorem stalled_request_outlives_failure newId latency productId quantity gremlin s p :
  productId <> "" -> quantity <> 0 -> newId <> "" ->
  TIMEOUT_MS < response_time latency gremlin ->
  channel s <> Broker.ChannelOpen ->
  inflight s = [] ->
  newId ∉ Inventory.idempotencyLog (inventory s) ->
  Inventory.product (inventory s) !! productId = Some p ->
  quantity <= Inventory.stock p ->
  let result := post_orders newId latency
                  (mkOrderRequest (Some productId) (Some quantity) gremlin) s in
  let s1 := finish_inflight (snd result) in
  fst result = Some (failed_response newId)
  /\ order s1 !! newId = Some (mkOrder newId productId quantity FAILED)
  /\ inventory s1
     = Inventory.mkDb
         (<[productId := Inventory.mkProduct (Inventory.name p)
                           (Inventory.stock p - quantity)]>
            (Inventory.product (inventory s)))
         ({[newId]} ∪ Inventory.idempotencyLog (inventory s))
  /\ queues s1 = queues s
  /\ inflight s1 = [].
Proof.
  intros Hp Hq Hid Hlate Hch Hfl Hnin Hprod Hle result s1.
  assert (E : result
              = (Some (failed_response newId),
                 mkSystem
                   (<[newId := mkOrder newId productId quantity FAILED]>
                      (<[newId := mkOrder newId productId quantity PENDING]>
                         (order s)))
                   ((statusWrites s ++ [(newId, PENDING)]) ++ [(newId, FAILED)])
                   (channel s) (queues s) (inventory s)
                   [Inventory.mkDeductRequest (Some productId) (Some quantity)
                      (Some newId) gremlin])).
  { subst result. rewrite OutcomeFacts.post_orders_late by assumption.
    cbv zeta. rewrite Hfl. destruct (channel s) eqn:C; try reflexivity.
    now contradiction Hch. }
  subst s1. rewrite E. cbn [fst snd].
  unfold finish_inflight. cbn [inflight inventory].
  rewrite EndpointFacts.post_inventory_deduct_valid by assumption.
  rewrite (InventoryFacts.deductInventory_fresh _ _ _ _ p) by assumption.
  OrderFacts.sys_cbn. repeat split. apply lookup_insert_eq.
Qed.

Lemma stalled_request_outlives_failure_witness :
  fst (post_orders "o1" 50 (Scenario.gremlin 3)
         (Scenario.deployment Broker.NoChannel))
  = Some (failed_response "o1")
  /\ inventory (finish_inflight
                  (snd (post_orders "o1" 50 (Scenario.gremlin 3)
                          (Scenario.deployment Broker.NoChannel))))
     = Inventory.mkDb ({["p1" := Inventory.mkProduct "Flux Capacitor" 17]})
                      {["o1"]}.
Proof.
  destruct (stalled_request_outlives_failure "o1" 50 "p1" 3 (JBool true)
              (Scenario.deployment Broker.NoChannel)
              (Inventory.mkProduct "Flux Capacitor" 20))
    as (H & _ & Hi & _).
  - vm_compute. discriminate.
  - lia.
  - vm_compute. discriminate.
  - vm_compute. reflexivity.
  - simpl. discriminate.
  - reflexivity.
  - vm_compute. discriminate.
  - vm_compute. reflexivity.
  - simpl. lia.
  - split; [exact H|]. etransitivity; [exact Hi|]. vm_compute. reflexivity.
Defined.

End StalledFacts.
